(** * Attendance bot (bot.py): a shallow embedding and its properties

    The bot collects one attendance count per group ("1".."6"), keeps
    them in a module-level dict [state], mirrors that dict into
    [data.json] after every mutation and, once every group has a value,
    posts a summary and clears the dict.

    Conventions of the embedding.
    - A Python [str] is a [string] read as a sequence of code points
      below 256; the six group ids and every token built from ASCII
      digits, signs and underscores live in that range.
    - A Python object that [json.load] can return is a [pyval].  JSON
      numbers with a fraction or an exponent (Python floats) are left
      out: nothing in the bot creates them.
    - The dict [state] is an insertion-ordered association list, as a
      Python dict is.
    - Handlers run in a monad that threads the [world] (the dict, the
      file and the history of effects) and may raise; what a handler
      changed before it raised stays changed, as in Python.
    - Replies to the requesting chat and writes of [data.json] are taken
      to succeed; delivery to the secondary chat may fail.
    - Reply texts are kept as constructors carrying the interpolated
      values; the literal wording is quoted next to each constructor.
      The integers kept in the dict come out of [int], so [str] can
      always print them; the total of a summary is computed, and
      printing it fails beyond the digit limit of [str]. *)

From Stdlib Require Import ZArith NArith List String Ascii Bool Lia.
From Stdlib Require Import DecimalString.
Import ListNotations.
Open Scope string_scope.
Open Scope Z_scope.

(** ** Python values and exceptions *)

#[local] Set Warnings "-register-all".

Inductive pyval : Type :=
| PNone
| PBool (b : bool)
| PInt (z : Z)
| PStr (s : string)
| PList (items : list pyval)
| PDict (items : list (string * pyval)).

(** The exception classes that occur; [SystemExit] is the only one that
    is not a subclass of [Exception]. *)
Inductive exn : Type :=
| OSError
| UnicodeDecodeError
| JSONDecodeError
| RecursionError
| AttributeError
| KeyError
| TypeError
| ValueError
| TelegramError
| SystemExit (msg : string).

Definition is_Exception (e : exn) : bool :=
  match e with
  | SystemExit _ => false
  | _ => true
  end.

Definition is_ValueError (e : exn) : bool :=
  match e with
  | ValueError | JSONDecodeError | UnicodeDecodeError => true
  | _ => false
  end.

Definition result (A : Type) : Type := (A + exn)%type.

Definition is_not_None (v : pyval) : bool :=
  match v with
  | PNone => false
  | _ => true
  end.

(** ** Dicts with string keys, in insertion order *)

Definition pydict : Type := list (string * pyval).

Definition dict_keys (d : pydict) : list string := map fst d.
Definition dict_values (d : pydict) : list pyval := map snd d.

Fixpoint dict_find (d : pydict) (k : string) : option pyval :=
  match d with
  | [] => None
  | (k', v) :: rest => if String.eqb k k' then Some v else dict_find rest k
  end.

(** [d.get(k)]: the value, or [None]. *)
Definition dict_get (d : pydict) (k : string) : pyval :=
  match dict_find d k with
  | Some v => v
  | None => PNone
  end.

(** [d[k]]: the value, or [KeyError]. *)
Definition dict_getitem (d : pydict) (k : string) : result pyval :=
  match dict_find d k with
  | Some v => inl v
  | None => inr KeyError
  end.

(** [d[k] = v]: overwrite in place, or append a new key. *)
Fixpoint dict_setitem (d : pydict) (k : string) (v : pyval) : pydict :=
  match d with
  | [] => [(k, v)]
  | (k', v') :: rest =>
      if String.eqb k k' then (k', v) :: rest
      else (k', v') :: dict_setitem rest k v
  end.

(** [k in l] for a list of strings. *)
Definition str_in (k : string) (l : list string) : bool :=
  existsb (String.eqb k) l.

(** ** [int(s)] on a string

    CPython turns every Unicode space into a blank, then skips leading
    blanks, reads an optional sign, refuses a leading underscore, reads
    digits separated by single underscores, skips trailing blanks and
    wants the end of the string.  More than [int_max_str_digits] digits
    are refused.  Every failure is a [ValueError]. *)

Definition is_space (c : ascii) : bool :=
  let n := N_of_ascii c in
  ((9 <=? n) && (n <=? 13) || (n =? 32) || (n =? 133) || (n =? 160))%N.

Definition digit_value (c : ascii) : option Z :=
  let n := N_of_ascii c in
  if ((48 <=? n) && (n <=? 57))%N then Some (Z.of_N n - 48) else None.

Definition is_underscore (c : ascii) : bool := Ascii.eqb c "_"%char.

Fixpoint lstrip (s : string) : string :=
  match s with
  | String c rest => if is_space c then lstrip rest else s
  | EmptyString => EmptyString
  end.

Fixpoint all_space (s : string) : bool :=
  match s with
  | String c rest => is_space c && all_space rest
  | EmptyString => true
  end.

(** Default of [sys.get_int_max_str_digits()]. *)
Definition int_max_str_digits : N := 4300.

(** The digit loop: the value read so far, the number of digits, and
    whether the previous character was an underscore.  It stops at the
    first character that is neither a digit nor an underscore. *)
Fixpoint scan_digits (s : string) (prev_us : bool) (acc : Z) (digits : N)
  : option (Z * N * string) :=
  match s with
  | String c rest =>
      if is_underscore c then
        if prev_us then None else scan_digits rest true acc digits
      else
        match digit_value c with
        | Some d => scan_digits rest false (10 * acc + d) (N.succ digits)
        | None => if prev_us then None else Some (acc, digits, s)
        end
  | EmptyString => if prev_us then None else Some (acc, digits, EmptyString)
  end.

Definition split_sign (s : string) : bool * string :=
  match s with
  | String c rest =>
      if Ascii.eqb c "+"%char then (false, rest)
      else if Ascii.eqb c "-"%char then (true, rest)
      else (false, s)
  | EmptyString => (false, s)
  end.

Definition starts_with_underscore (s : string) : bool :=
  match s with
  | String c _ => is_underscore c
  | EmptyString => false
  end.

(** [Some z] when [int(s)] returns [z], [None] when it raises. *)
Definition py_int (s : string) : option Z :=
  let (neg, body) := split_sign (lstrip s) in
  if starts_with_underscore body then None
  else
    match scan_digits body false 0 0%N with
    | Some (v, digits, rest) =>
        if (digits =? 0)%N then None
        else if (int_max_str_digits <? digits)%N then None
        else if all_space rest then Some (if neg then - v else v)
        else None
    | None => None
    end.

(** [str(z)], as an f-string applies it to an int, raises [ValueError]
    when [z] has more than [int_max_str_digits] decimal digits. *)
Definition str_digit_bound : Z := 10 ^ Z.of_N int_max_str_digits.

Definition int_fits_str (z : Z) : bool := Z.abs z <? str_digit_bound.

Definition format_int (z : Z) : result unit :=
  if int_fits_str z then inl tt else inr ValueError.

Definition int_of_str (s : string) : result Z :=
  match py_int s with
  | Some z => inl z
  | None => inr ValueError
  end.

(** [str(i)] for a natural number: its decimal digits. *)
Definition str_of_nat (n : nat) : string :=
  NilEmpty.string_of_uint (Nat.to_uint n).

(** ** [sum] over a list of values, starting from the int 0 *)

Definition py_add (acc : Z) (v : pyval) : result Z :=
  match v with
  | PInt z => inl (acc + z)
  | PBool b => inl (acc + (if b then 1 else 0))
  | PNone | PStr _ | PList _ | PDict _ => inr TypeError
  end.

Fixpoint py_sum_from (acc : Z) (l : list pyval) : result Z :=
  match l with
  | [] => inl acc
  | v :: rest =>
      match py_add acc v with
      | inl acc' => py_sum_from acc' rest
      | inr e => inr e
      end
  end.

Definition py_sum (l : list pyval) : result Z := py_sum_from 0 l.

(** ** The persisted file, as [open] and [json.load] see it *)

(** Why reading [data.json] can fail although the path exists. *)
Inductive read_error : Type :=
| CannotOpen        (* open() raises OSError: a directory, no permission *)
| NotUtf8           (* the bytes do not decode: UnicodeDecodeError *)
| NotJson           (* json.load raises JSONDecodeError *)
| TooDeep           (* json.load raises RecursionError *)
| NumberTooLong.    (* an integer literal beyond the digit limit: ValueError *)

Definition exn_of_read_error (e : read_error) : exn :=
  match e with
  | CannotOpen => OSError
  | NotUtf8 => UnicodeDecodeError
  | NotJson => JSONDecodeError
  | TooDeep => RecursionError
  | NumberTooLong => ValueError
  end.

Inductive data_file : Type :=
| NoFile                          (* os.path.exists(DATA_FILE) is False *)
| BadFile (e : read_error)        (* the path exists, reading it raises *)
| JsonFile (data : pyval).        (* json.load(f) returns [data] *)

Definition path_exists (f : data_file) : bool :=
  match f with
  | NoFile => false
  | _ => true
  end.

(** [with open(DATA_FILE, "r", encoding="utf-8") as f: json.load(f)] *)
Definition json_load (f : data_file) : result pyval :=
  match f with
  | NoFile => inr OSError
  | BadFile e => inr (exn_of_read_error e)
  | JsonFile data => inl data
  end.

(** [data.get(k)]: only a dict has the method. *)
Definition py_get (data : pyval) (k : string) : result pyval :=
  match data with
  | PDict d => inl (dict_get d k)
  | _ => inr AttributeError
  end.

(** ** Messages and effects *)

Inductive fila_estado : Type :=
| Pendiente (g : string)               (* "Grupo {g}: ❌ pendiente" *)
| Reportado (g : string) (v : pyval).  (* "Grupo {g}: ✅ {state[g]} asistentes" *)

Inductive message : Type :=
| MsgAyuda                             (* "Bot de asistencia listo. ..." *)
| MsgFormato                           (* "Formato: /asistencia <grupo> <número> ..." *)
| MsgGrupoInvalido                     (* "Grupo inválido. Usa un número entre 1 y 6." *)
| MsgNumeroInvalido                    (* "El número debe ser un entero >= 0." *)
| MsgReporto (grupo : string) (numero : Z)
                                       (* "✅ Grupo {grupo} reportó {numero} asistentes por Zoom." *)
| MsgResumen (filas : list (string * pyval)) (total : Z)
                                       (* "📊 *Resumen ...*", "Grupo {g}: {state[g]}" per group,
                                          "✅ *Total:* {total}" *)
| MsgFalloEnvio                        (* "⚠️ Falló el envío del reporte al chat final (ver logs)." *)
| MsgEstado (filas : list fila_estado) (* "📌 Estado actual de reportes:" and one line per group *)
| MsgChatId (id : Z).                  (* "Este chat tiene id: {chat.id}" *)

Inductive log_record : Type :=
| LogTokenMissing      (* logger.error("Falta la variable de entorno TELEGRAM_TOKEN. Abortando.") *)
| LogNoReportChat      (* logger.warning("REPORT_CHAT_ID no está definido. ...") *)
| LogLoadFailed        (* logger.exception("No pude leer data.json, ...") *)
| LogSendFailed        (* logger.exception("No pude enviar el mensaje al REPORT_CHAT_ID: %s", e) *)
| LogStarted           (* logger.info("Bot iniciado. Haciendo polling...") *)
| LogHandlerError (e : exn).  (* the dispatcher logs what a handler raised *)

Inductive event : Type :=
| Reply (m : message)               (* update.message.reply_text(m) *)
| Sent (chat_id : Z) (m : message)  (* context.bot.send_message delivered *)
| Saved (st : pydict)               (* save_state wrote the dict *)
| Logged (r : log_record).

(** ** The world a handler runs in *)

Record world : Type := mkWorld {
  state : pydict;         (* the module-level dict *)
  disk : data_file;       (* data.json *)
  history : list event    (* effects so far, oldest first *)
}.

Definition M (A : Type) : Type := world -> result A * world.

Definition ret {A : Type} (a : A) : M A := fun w => (inl a, w).

Definition bind {A B : Type} (m : M A) (k : A -> M B) : M B :=
  fun w =>
    match m w with
    | (inl a, w') => k a w'
    | (inr e, w') => (inr e, w')
    end.

Definition raise {A : Type} (e : exn) : M A := fun w => (inr e, w).

Definition lift {A : Type} (r : result A) : M A := fun w => (r, w).

(** [try: body / except <caught>: handler] *)
Definition try_except {A : Type} (body : M A) (caught : exn -> bool)
  (handler : exn -> M A) : M A :=
  fun w =>
    match body w with
    | (inl a, w') => (inl a, w')
    | (inr e, w') => if caught e then handler e w' else (inr e, w')
    end.

Declare Scope py_scope.
Delimit Scope py_scope with py.
Notation "x <- m ;; k" := (bind m (fun x => k))
  (at level 61, m at next level, right associativity) : py_scope.
Notation "m ;; k" := (bind m (fun _ => k))
  (at level 61, right associativity) : py_scope.
Open Scope py_scope.

(** [for x in l: body x] *)
Fixpoint for_each {A : Type} (l : list A) (body : A -> M unit) : M unit :=
  match l with
  | [] => ret tt
  | x :: rest => body x ;; for_each rest body
  end.

(** [[f x for x in l]] where [f] may raise. *)
Fixpoint collect {A B : Type} (f : A -> result B) (l : list A) : result (list B) :=
  match l with
  | [] => inl []
  | x :: rest =>
      match f x with
      | inl y =>
          match collect f rest with
          | inl ys => inl (y :: ys)
          | inr e => inr e
          end
      | inr e => inr e
      end
  end.

Definition emit (e : event) : M unit :=
  fun w => (inl tt, mkWorld (state w) (disk w) (history w ++ [e])).

Definition reply_text (m : message) : M unit := emit (Reply m).

Definition get_state : M pydict := fun w => (inl (state w), w).

(** [state[k]] *)
Definition state_getitem (k : string) : M pyval :=
  fun w => (dict_getitem (state w) k, w).

(** [state[k] = v] *)
Definition state_setitem (k : string) (v : pyval) : M unit :=
  fun w => (inl tt, mkWorld (dict_setitem (state w) k v) (disk w) (history w)).

(** ** bot.py *)

(** [GROUPS = [str(i) for i in range(1, 7)]] *)
Definition GROUPS : list string := map str_of_nat (seq 1 6).

Definition clean_state : pydict := map (fun g => (g, PNone)) GROUPS.

(** The body of the [try] in [load_state]: the comprehension calls
    [data.get(g)] twice per group. *)
Definition load_state_try (f : data_file) : result pydict :=
  match json_load f with
  | inl data =>
      collect
        (fun g =>
           match py_get data g with
           | inl probe =>
               if is_not_None probe then
                 match py_get data g with
                 | inl v => inl (g, v)
                 | inr e => inr e
                 end
               else inl (g, PNone)
           | inr e => inr e
           end)
        GROUPS
  | inr e => inr e
  end.

(** [load_state()]: the value returned or the exception that leaves the
    call, and what was logged. *)
Definition load_state (f : data_file) : result pydict * list log_record :=
  if path_exists f then
    match load_state_try f with
    | inl st => (inl st, [])
    | inr e =>
        if is_Exception e then (inl clean_state, [LogLoadFailed])
        else (inr e, [])
    end
  else (inl clean_state, []).

(** [save_state(state)]: [json.dump] writes the dict; reading the file
    back gives the same dict. *)
Definition save_state : M unit :=
  fun w =>
    (inl tt,
     mkWorld (state w) (JsonFile (PDict (state w))) (history w ++ [Saved (state w)])).

(** Truth value of an [Optional[str]] from [os.getenv]. *)
Definition truthy (o : option string) : bool :=
  match o with
  | Some s => negb (String.eqb s "")
  | None => false
  end.

(** [[f x for x in l]] where [f] reads the world and may raise. *)
Fixpoint map_m {A B : Type} (f : A -> M B) (l : list A) : M (list B) :=
  match l with
  | [] => ret []
  | x :: rest => y <- f x ;; ys <- map_m f rest ;; ret (y :: ys)
  end.

(** What the transport hands to a handler: the command name, the
    whitespace-separated arguments ([context.args]) and the chat. *)
Record update : Type := mkUpdate {
  command : string;
  args : list string;
  chat : Z
}.

Section Handlers.

(** [os.getenv("REPORT_CHAT_ID")] *)
Variable REPORT_CHAT_ID : option string.

(** Whether Telegram delivers a message to the given chat id. *)
Variable reachable : Z -> bool.

(** [context.bot.send_message(chat_id=..., text=...)] *)
Definition send_message (chat_id : Z) (m : message) : M unit :=
  if reachable chat_id then emit (Sent chat_id m) else raise TelegramError.

(** [int(REPORT_CHAT_ID)] *)
Definition report_chat_id : result Z :=
  match REPORT_CHAT_ID with
  | Some s => int_of_str s
  | None => inr TypeError
  end.

Definition start : M unit := reply_text MsgAyuda.

(** The part of [asistencia_cmd] after the arguments were validated. *)
Definition registrar (grupo : string) (numero : Z) : M unit :=
  state_setitem grupo (PInt numero) ;;
  save_state ;;
  reply_text (MsgReporto grupo numero) ;;
  st <- get_state ;;
  if forallb is_not_None (dict_values st) then
    st' <- get_state ;;
    total <- lift (py_sum (dict_values st')) ;;
    filas <- map_m (fun g => v <- state_getitem g ;; ret (g, v)) GROUPS ;;
    lift (format_int total) ;;
    let mensaje := MsgResumen filas total in
    reply_text mensaje ;;
    (if truthy REPORT_CHAT_ID then
       try_except
         (chat_id <- lift report_chat_id ;; send_message chat_id mensaje)
         is_Exception
         (fun _ => emit (Logged LogSendFailed) ;; reply_text MsgFalloEnvio)
     else ret tt) ;;
    for_each GROUPS (fun g => state_setitem g PNone) ;;
    save_state
  else ret tt.

Definition asistencia_cmd (args : list string) : M unit :=
  if negb (Nat.eqb (List.length args) 2) then reply_text MsgFormato
  else
    match args with
    | [grupo; numero_raw] =>
        if negb (str_in grupo GROUPS) then reply_text MsgGrupoInvalido
        else
          parsed <- try_except
                      (numero <- lift (int_of_str numero_raw) ;;
                       if numero <? 0 then raise ValueError
                       else ret (Some numero))
                      is_ValueError
                      (fun _ => reply_text MsgNumeroInvalido ;; ret None) ;;
          match parsed with
          | Some numero => registrar grupo numero
          | None => ret tt
          end
    | _ => raise ValueError   (* unpacking a list of another length *)
    end.

Definition estado : M unit :=
  filas <- map_m
             (fun g =>
                v <- state_getitem g ;;
                if is_not_None v then
                  v' <- state_getitem g ;; ret (Reportado g v')
                else ret (Pendiente g))
             GROUPS ;;
  reply_text (MsgEstado filas).

Definition getchat (chat_id : Z) : M unit := reply_text (MsgChatId chat_id).

(** The handlers [main] registers, in order. *)
Definition handlers : list (string * (update -> M unit)) :=
  [ ("start", fun _ => start);
    ("help", fun _ => start);
    ("asistencia", fun u => asistencia_cmd (args u));
    ("estado", fun _ => estado);
    ("getchatid", fun u => getchat (chat u)) ].

Fixpoint find_handler (table : list (string * (update -> M unit)))
  (name : string) : option (update -> M unit) :=
  match table with
  | [] => None
  | (n, h) :: rest => if String.eqb name n then Some h else find_handler rest name
  end.

(** One update, handled to completion.  A handler that raises is
    logged by the dispatcher and the process goes on. *)
Definition process_update (u : update) (w : world) : world :=
  match find_handler handlers (command u) with
  | Some h =>
      match h u w with
      | (inl _, w') => w'
      | (inr e, w') =>
          mkWorld (state w') (disk w') (history w' ++ [Logged (LogHandlerError e)])
      end
  | None => w
  end.

(** [app.run_polling()] over the updates that arrive. *)
Definition run_polling (updates : list update) (w : world) : world :=
  fold_left (fun acc u => process_update u acc) updates w.

End Handlers.

(** ** The process: module initialisation, then [main()] *)

Inductive outcome : Type :=
| Aborted (e : exn) (logs : list log_record)   (* the module raised while loading *)
| Served (w : world).                          (* [main] ran over the updates *)

Definition bot (getenv : string -> option string) (reachable : Z -> bool)
  (f : data_file) (updates : list update) : outcome :=
  let TELEGRAM_TOKEN := getenv "TELEGRAM_TOKEN" in
  let REPORT_CHAT_ID := getenv "REPORT_CHAT_ID" in
  if negb (truthy TELEGRAM_TOKEN) then
    Aborted (SystemExit "TELEGRAM_TOKEN missing") [LogTokenMissing]
  else
    let warned := if negb (truthy REPORT_CHAT_ID) then [LogNoReportChat] else [] in
    match load_state f with
    | (inl st, logged) =>
        let w0 := mkWorld st f (map Logged (warned ++ logged ++ [LogStarted])) in
        Served (run_polling REPORT_CHAT_ID reachable updates w0)
    | (inr e, logged) => Aborted e (warned ++ logged)
    end.

(** ** Vocabulary of the properties *)

(** The key set of an attendance state: the six group ids, in order. *)
Definition keys_ok (st : pydict) : Prop := dict_keys st = GROUPS.

(** A slot is unset or holds a non-negative integer. *)
Definition is_count (v : pyval) : bool :=
  match v with
  | PNone => true
  | PInt n => 0 <=? n
  | _ => false
  end.

Definition counts_ok (st : pydict) : Prop :=
  forallb is_count (dict_values st) = true.

(** The invariant of the data model. *)
Definition attendance_state (st : pydict) : Prop := keys_ok st /\ counts_ok st.

(** A persisted file whose six group entries, when it is a JSON object,
    are null, missing or non-negative integers. *)
Definition file_counts_ok (f : data_file) : Prop :=
  match f with
  | JsonFile (PDict d) =>
      forallb (fun g => is_count (dict_get d g)) GROUPS = true
  | _ => True
  end.

(** Every group holds a value. *)
Definition all_reported (st : pydict) : bool :=
  forallb is_not_None (dict_values st).

(** Some group other than [g] is still pending. *)
Definition other_pending (st : pydict) (g : string) : bool :=
  existsb (fun g' => negb (String.eqb g' g) && negb (is_not_None (dict_get st g')))
          GROUPS.

(** The line of the status message for one group. *)
Definition fila_de (st : pydict) (g : string) : fila_estado :=
  match dict_get st g with
  | PNone => Pendiente g
  | v => Reportado g v
  end.

Definition fila_grupo (f : fila_estado) : string :=
  match f with
  | Pendiente g => g
  | Reportado g _ => g
  end.

(** What the most recent effect, if it is a status message, shows for
    group [g]. *)
Definition status_shown (w : world) (g : string) : option fila_estado :=
  match last (history w) (Logged LogStarted) with
  | Reply (MsgEstado filas) =>
      find (fun f => String.eqb (fila_grupo f) g) filas
  | _ => None
  end.

(** The validation of [asistencia_cmd] as one function: the rejection
    sent, or the group and the count that are recorded. *)
Definition parse_report (args : list string) : message + (string * Z) :=
  match args with
  | [grupo; numero_raw] =>
      if str_in grupo GROUPS then
        match py_int numero_raw with
        | Some numero => if numero <? 0 then inl MsgNumeroInvalido
                         else inr (grupo, numero)
        | None => inl MsgNumeroInvalido
        end
      else inl MsgGrupoInvalido
  | _ => inl MsgFormato
  end.

Definition is_rejection (m : message) : bool :=
  match m with
  | MsgFormato | MsgGrupoInvalido | MsgNumeroInvalido => true
  | _ => false
  end.

(** An update that is a valid report. *)
Definition valid_report (u : update) : bool :=
  String.eqb (command u) "asistencia" &&
  match parse_report (args u) with
  | inr _ => true
  | inl _ => false
  end.

(** What the attempt to reach the secondary destination adds to the
    history: nothing when none is configured, the delivery, or the
    logged failure and the warning to the requester. *)
Definition delivery_events (REPORT_CHAT_ID : option string)
  (reachable : Z -> bool) (mensaje : message) : list event :=
  if truthy REPORT_CHAT_ID then
    match report_chat_id REPORT_CHAT_ID with
    | inl chat_id =>
        if reachable chat_id then [Sent chat_id mensaje]
        else [Logged LogSendFailed; Reply MsgFalloEnvio]
    | inr _ => [Logged LogSendFailed; Reply MsgFalloEnvio]
    end
  else [].

Definition delivery_fails (REPORT_CHAT_ID : option string)
  (reachable : Z -> bool) : bool :=
  truthy REPORT_CHAT_ID &&
  match report_chat_id REPORT_CHAT_ID with
  | inl chat_id => negb (reachable chat_id)
  | inr _ => true
  end.

(** Effects that belong to a completion: the summary, a delivery to the
    secondary destination, a write of the file. *)
Definition is_completion_event (e : event) : bool :=
  match e with
  | Reply (MsgResumen _ _) => true
  | Sent _ _ => true
  | Saved _ => true
  | _ => false
  end.

Definition six (v1 v2 v3 v4 v5 v6 : pyval) : pydict :=
  [("1", v1); ("2", v2); ("3", v3); ("4", v4); ("5", v5); ("6", v6)].

Definition with_history (w : world) (h : list event) : world :=
  mkWorld (state w) (disk w) (history w ++ h).


Definition quiet_event (e : event) : bool := negb (is_completion_event e).

(** ** Sample inputs *)

Definition sample_env (token chat : option string) (name : string) : option string :=
  if String.eqb name "TELEGRAM_TOKEN" then token
  else if String.eqb name "REPORT_CHAT_ID" then chat
  else None.

Definition always_delivers (chat_id : Z) : bool := true.
Definition never_delivers (chat_id : Z) : bool := false.

(** Groups 2..6 have reported, group 1 has not. *)
Definition one_missing : world :=
  mkWorld (six PNone (PInt 0) (PInt 10) (PInt 2) (PInt 1) (PInt 0)) NoFile [].

(** Only group 2 has reported. *)
Definition one_reported : world :=
  mkWorld (six PNone (PInt 4) PNone PNone PNone PNone) NoFile [].

(** A file holding a negative number for group 1: [{"1": -1}]. *)
Definition negative_file : data_file := JsonFile (PDict [("1", PInt (-1))]).

(** A file in which all six groups hold a value. *)
Definition full_record : pydict :=
  six (PInt 5) (PInt 0) (PInt 10) (PInt 2) (PInt 1) (PInt 0).

(** The sum of the values of the dict can be printed: it is a number
    of at most [int_max_str_digits] digits. *)
Definition total_fits (st : pydict) : bool :=
  match py_sum (dict_values st) with
  | inl total => int_fits_str total
  | inr _ => false
  end.

(** The largest count [int] reads: 4300 nines. *)
Definition largest_count : Z := str_digit_bound - 1.

(** Group 2 holds the largest count, groups 3..6 hold 0 and group 1 is
    pending. *)
Definition large_pending : world :=
  mkWorld (six PNone (PInt largest_count) (PInt 0) (PInt 0) (PInt 0) (PInt 0))
          NoFile [].


(** ** Vocabulary of the further properties *)

(** The dict after the reports [rs], were each of them just stored. *)
Definition apply_reports (st : pydict) (rs : list (string * string)) : pydict :=
  fold_left (fun acc r => match py_int (snd r) with
                          | Some n => dict_setitem acc (fst r) (PInt n)
                          | None => acc
                          end) rs st.

(** The groups that have no value yet. *)
Definition pending_groups (st : pydict) : list string :=
  filter (fun g => negb (is_not_None (dict_get st g))) GROUPS.

(** Some group other than [g1] and [g2] is still pending. *)
Definition third_pending (st : pydict) (g1 g2 : string) : bool :=
  existsb (fun g' => negb (String.eqb g' g1) && negb (String.eqb g' g2)
                     && negb (is_not_None (dict_get st g')))
          GROUPS.

(** A value that [sum] can add to an int. *)
Definition is_number (v : pyval) : bool :=
  match v with
  | PInt _ | PBool _ => true
  | _ => false
  end.

Definition is_summary (e : event) : bool :=
  match e with
  | Reply (MsgResumen _ _) => true
  | _ => false
  end.

Definition is_sent (e : event) : bool :=
  match e with
  | Sent _ _ => true
  | _ => false
  end.

(** The update that carries [/asistencia g raw]. *)
Definition report_update (c : Z) (r : string * string) : update :=
  mkUpdate "asistencia" [fst r; snd r] c.

(** The reports are valid: the count of each is read by [int] as a
    non-negative number. *)
Definition counts_valid (rs : list (string * string)) : bool :=
  forallb (fun r => match py_int (snd r) with
                    | Some n => 0 <=? n
                    | None => false
                    end) rs.

(** Groups 1 and 2 have reported; group 3 holds text, as a file edited
    by hand can make it. *)
Definition text_in_slot : world :=
  mkWorld (six (PInt 1) (PInt 2) (PStr "doce") (PInt 4) (PInt 5) PNone) NoFile [].

(** The five pending groups of [one_reported], reporting out of order. *)
Definition sample_round : list (string * string) :=
  [("5", "1"); ("1", "3"); ("6", "0"); ("3", "2"); ("4", "9")].

(** * Properties *)

(** ** The groups and the dict operations *)

Lemma GROUPS_eq : GROUPS = ["1"; "2"; "3"; "4"; "5"; "6"].
Proof. reflexivity. Qed.

Lemma clean_state_eq : clean_state = six PNone PNone PNone PNone PNone PNone.
Proof. reflexivity. Qed.

Lemma str_in_GROUPS (g : string) :
  str_in g GROUPS = true <->
  g = "1" \/ g = "2" \/ g = "3" \/ g = "4" \/ g = "5" \/ g = "6".
Proof.
  rewrite GROUPS_eq. unfold str_in. cbn [existsb].
  rewrite !orb_true_iff, !String.eqb_eq. intuition discriminate.
Qed.

Lemma str_in_In (g : string) (l : list string) :
  str_in g l = true <-> In g l.
Proof.
  unfold str_in. rewrite existsb_exists. split.
  - intros [x [Hx He]]. apply String.eqb_eq in He. now subst.
  - intros H. exists g. split; [assumption | apply String.eqb_refl].
Qed.

Lemma keys_shape (st : pydict) :
  keys_ok st -> exists v1 v2 v3 v4 v5 v6, st = six v1 v2 v3 v4 v5 v6.
Proof.
  unfold keys_ok. rewrite GROUPS_eq. intros H.
  do 6 (destruct st as [| [? ?] st]; [discriminate H |]).
  destruct st; [| discriminate H].
  cbn in H. injection H as -> -> -> -> -> ->.
  now eexists _, _, _, _, _, _.
Qed.

Lemma dict_find_setitem_same (d : pydict) (k : string) (v : pyval) :
  dict_find (dict_setitem d k v) k = Some v.
Proof.
  induction d as [| [k' v'] d IH]; cbn.
  - now rewrite String.eqb_refl.
  - destruct (String.eqb k k') eqn:E; cbn; rewrite E; [reflexivity | exact IH].
Qed.

Lemma dict_find_setitem_other (d : pydict) (k k' : string) (v : pyval) :
  k' <> k -> dict_find (dict_setitem d k v) k' = dict_find d k'.
Proof.
  intros Hne. induction d as [| [k0 v0] d IH]; cbn.
  - apply String.eqb_neq in Hne. now rewrite Hne.
  - destruct (String.eqb k k0) eqn:E; cbn.
    + apply String.eqb_eq in E. subst k0.
      apply String.eqb_neq in Hne. now rewrite Hne.
    + destruct (String.eqb k' k0); [reflexivity | exact IH].
Qed.

Lemma dict_get_setitem_same (d : pydict) (k : string) (v : pyval) :
  dict_get (dict_setitem d k v) k = v.
Proof. unfold dict_get. now rewrite dict_find_setitem_same. Qed.

Lemma dict_get_setitem_other (d : pydict) (k k' : string) (v : pyval) :
  k' <> k -> dict_get (dict_setitem d k v) k' = dict_get d k'.
Proof. intros H. unfold dict_get. now rewrite dict_find_setitem_other. Qed.

Lemma dict_keys_setitem (d : pydict) (k : string) (v : pyval) :
  In k (dict_keys d) -> dict_keys (dict_setitem d k v) = dict_keys d.
Proof.
  induction d as [| [k' v'] d IH]; cbn; [tauto |].
  intros [-> | Hin].
  - now rewrite String.eqb_refl.
  - destruct (String.eqb k k'); cbn; [reflexivity | f_equal; now apply IH].
Qed.

Lemma keys_ok_setitem (st : pydict) (g : string) (v : pyval) :
  keys_ok st -> str_in g GROUPS = true -> keys_ok (dict_setitem st g v).
Proof.
  unfold keys_ok. intros Hk Hg. rewrite dict_keys_setitem; [exact Hk |].
  rewrite Hk. now apply str_in_In.
Qed.

Lemma dict_find_in_keys (d : pydict) (k : string) :
  In k (dict_keys d) -> exists v, dict_find d k = Some v /\ In v (dict_values d).
Proof.
  induction d as [| [k' v'] d IH]; cbn; [tauto |].
  destruct (String.eqb k k') eqn:E.
  - intros _. exists v'. auto.
  - intros [-> | Hin]; [now rewrite String.eqb_refl in E |].
    destruct (IH Hin) as [v [Hf Hv]]. exists v. auto.
Qed.

Lemma dict_values_setitem_forall (P : pyval -> bool) (d : pydict) (k : string)
  (v : pyval) :
  forallb P (dict_values d) = true -> P v = true ->
  forallb P (dict_values (dict_setitem d k v)) = true.
Proof.
  intros Hd Hv. induction d as [| [k' v'] d IH]; cbn in *.
  - now rewrite Hv.
  - apply andb_true_iff in Hd as [H1 H2].
    destruct (String.eqb k k'); cbn; rewrite ?Hv, ?H1, ?H2; auto.
Qed.

(** ** The handlers, step by step *)

Lemma asistencia_cmd_parse (rc : option string) (reach : Z -> bool)
  (args : list string) (w : world) :
  asistencia_cmd rc reach args w =
  match parse_report args with
  | inl m => reply_text m w
  | inr (g, n) => registrar rc reach g n w
  end.
Proof.
  destruct args as [| a [| b [| c rest]]]; try reflexivity.
  unfold asistencia_cmd, parse_report. cbn [List.length Nat.eqb negb].
  destruct (str_in a GROUPS); [| reflexivity]. cbn [negb].
  unfold bind, try_except, lift, int_of_str.
  destruct (py_int b) as [z |]; [| reflexivity].
  destruct (z <? 0); reflexivity.
Qed.

Lemma other_pending_not_all (st : pydict) (g : string) (v : pyval) :
  keys_ok st -> str_in g GROUPS = true -> other_pending st g = true ->
  all_reported (dict_setitem st g v) = false.
Proof.
  intros Hk Hg Hp.
  destruct (keys_shape st Hk) as (v1 & v2 & v3 & v4 & v5 & v6 & ->).
  apply str_in_GROUPS in Hg.
  unfold other_pending, all_reported in *.
  destruct Hg as [-> | [-> | [-> | [-> | [-> | ->]]]]];
    cbn -[is_not_None] in *;
    destruct (is_not_None v1), (is_not_None v2), (is_not_None v3),
      (is_not_None v4), (is_not_None v5), (is_not_None v6);
    cbn in *; try discriminate; rewrite ?andb_false_r; reflexivity.
Qed.

Lemma reported_counts_shape (st : pydict) :
  attendance_state st -> all_reported st = true ->
  exists v1 v2 v3 v4 v5 v6 : Z,
    st = six (PInt v1) (PInt v2) (PInt v3) (PInt v4) (PInt v5) (PInt v6) /\
    0 <= v1 /\ 0 <= v2 /\ 0 <= v3 /\ 0 <= v4 /\ 0 <= v5 /\ 0 <= v6.
Proof.
  intros [Hk Hc] Ha.
  destruct (keys_shape st Hk) as (v1 & v2 & v3 & v4 & v5 & v6 & ->).
  unfold counts_ok, all_reported in *. cbn -[is_count is_not_None] in *.
  repeat match goal with
         | H : _ && _ = true |- _ => apply andb_true_iff in H; destruct H
         end.
  repeat match goal with
         | v : pyval |- _ => destruct v; try discriminate
         end.
  cbn in *.
  repeat match goal with
         | H : (0 <=? _) = true |- _ => apply Z.leb_le in H
         end.
  eexists _, _, _, _, _, _. repeat split; eassumption.
Qed.

Lemma attendance_state_setitem (st : pydict) (g : string) (n : Z) :
  attendance_state st -> str_in g GROUPS = true -> 0 <= n ->
  attendance_state (dict_setitem st g (PInt n)).
Proof.
  intros [Hk Hc] Hg Hn. split.
  - now apply keys_ok_setitem.
  - apply dict_values_setitem_forall; [exact Hc |]. now apply Z.leb_le.
Qed.

Lemma attendance_state_clean : attendance_state clean_state.
Proof. split; reflexivity. Qed.

(** The comprehension of [estado] reads the dict and leaves the world
    as it was. *)
Lemma estado_rows_frame (l : list string) (w : world) :
  exists r,
    map_m (fun g =>
             v <- state_getitem g ;;
             if is_not_None v then v' <- state_getitem g ;; ret (Reportado g v')
             else ret (Pendiente g)) l w = (r, w).
Proof.
  induction l as [| g l [r IH]]; cbn [map_m].
  - eexists. reflexivity.
  - unfold bind at 1. unfold bind at 1. unfold state_getitem at 1.
    destruct (dict_getitem (state w) g) as [v | e]; [| eexists; reflexivity].
    destruct (is_not_None v).
    + unfold bind at 1. unfold state_getitem at 1.
      destruct (dict_getitem (state w) g) as [v' | e]; [| eexists; reflexivity].
      unfold ret at 1. unfold bind at 1. rewrite IH.
      destruct r; eexists; reflexivity.
    + unfold ret at 1. unfold bind at 1. rewrite IH.
      destruct r; eexists; reflexivity.
Qed.

Lemma estado_rows (l : list string) (w : world) :
  (forall g, In g l -> In g (dict_keys (state w))) ->
  map_m (fun g =>
           v <- state_getitem g ;;
           if is_not_None v then v' <- state_getitem g ;; ret (Reportado g v')
           else ret (Pendiente g)) l w
  = (inl (map (fila_de (state w)) l), w).
Proof.
  induction l as [| g l IH]; intros Hin; cbn [map_m map].
  - reflexivity.
  - destruct (dict_find_in_keys (state w) g) as [v [Hf _]];
      [apply Hin; now left |].
    unfold bind at 1. unfold bind at 1. unfold state_getitem at 1.
    unfold dict_getitem. rewrite Hf.
    assert (Hrow : fila_de (state w) g
                   = if is_not_None v then Reportado g v else Pendiente g).
    { unfold fila_de, dict_get. rewrite Hf. now destruct v. }
    rewrite Hrow.
    destruct (is_not_None v).
    + unfold bind at 1. unfold state_getitem at 1. unfold dict_getitem.
      rewrite Hf. unfold ret at 1. unfold bind at 1.
      rewrite IH by (intros; apply Hin; now right). reflexivity.
    + unfold ret at 1. unfold bind at 1.
      rewrite IH by (intros; apply Hin; now right). reflexivity.
Qed.

Lemma estado_run (w : world) :
  keys_ok (state w) ->
  estado w = (inl tt, with_history w [Reply (MsgEstado (map (fila_de (state w)) GROUPS))]).
Proof.
  intros Hk. unfold estado. unfold bind at 1.
  rewrite estado_rows by (intros g Hg; now rewrite Hk). reflexivity.
Qed.

Lemma estado_frame (w : world) :
  exists r h, estado w = (r, with_history w h) /\
              (h = [] \/ exists filas, h = [Reply (MsgEstado filas)]).
Proof.
  unfold estado. unfold bind at 1.
  destruct (estado_rows_frame GROUPS w) as [r ->].
  destruct r as [filas | e].
  - exists (inl tt), [Reply (MsgEstado filas)]. split; [reflexivity | eauto].
  - exists (inr e), []. split; [| now left].
    unfold with_history. rewrite app_nil_r. now destruct w.
Qed.

Lemma fila_grupo_fila_de (st : pydict) (g : string) : fila_grupo (fila_de st g) = g.
Proof. unfold fila_de. now destruct (dict_get st g). Qed.

Lemma find_fila_de (st : pydict) (g : string) (l : list string) :
  In g l ->
  find (fun f => String.eqb (fila_grupo f) g) (map (fila_de st) l)
  = Some (fila_de st g).
Proof.
  induction l as [| g' l IH]; cbn [In map find]; [tauto |].
  rewrite fila_grupo_fila_de. intros Hin.
  destruct (String.eqb g' g) eqn:E.
  - apply String.eqb_eq in E. now subst.
  - destruct Hin as [-> | Hin]; [now rewrite String.eqb_refl in E | now apply IH].
Qed.

Lemma parse_report_inr (a : list string) (g : string) (n : Z) :
  parse_report a = inr (g, n) ->
  exists raw, a = [g; raw] /\ str_in g GROUPS = true /\
              py_int raw = Some n /\ 0 <= n.
Proof.
  unfold parse_report. intros H.
  destruct a as [| x [| raw [| c rest]]]; try discriminate H.
  destruct (str_in x GROUPS) eqn:Hg; [| discriminate H].
  destruct (py_int raw) as [z |] eqn:Hz; [| discriminate H].
  destruct (z <? 0) eqn:Hneg; [discriminate H |].
  injection H as -> ->. exists raw. apply Z.ltb_ge in Hneg. auto.
Qed.

Lemma parse_report_inl (a : list string) (m : message) :
  parse_report a = inl m -> is_rejection m = true.
Proof.
  unfold parse_report. intros H.
  destruct a as [| x [| raw [| c rest]]];
    try (injection H as <-; reflexivity).
  destruct (str_in x GROUPS); [| injection H as <-; reflexivity].
  destruct (py_int raw) as [z |]; [| injection H as <-; reflexivity].
  destruct (z <? 0); [injection H as <-; reflexivity | discriminate H].
Qed.

Lemma parse_report_valid (g raw : string) (n : Z) :
  str_in g GROUPS = true -> py_int raw = Some n -> 0 <= n ->
  parse_report [g; raw] = inr (g, n).
Proof.
  intros Hg Hn Hpos. unfold parse_report. rewrite Hg, Hn.
  apply Z.ltb_ge in Hpos. now rewrite Hpos.
Qed.

(** [registrar] in full, for a dict with the six keys. *)
Lemma registrar_run (rc : option string) (reach : Z -> bool)
  (g : string) (n : Z) (w : world) :
  let st1 := dict_setitem (state w) g (PInt n) in
  let recorded := [Saved st1; Reply (MsgReporto g n)] in
  keys_ok st1 ->
  registrar rc reach g n w =
  if all_reported st1 then
    match py_sum (dict_values st1) with
    | inl total =>
        if int_fits_str total then
          let mensaje := MsgResumen st1 total in
          (inl tt,
           mkWorld clean_state (JsonFile (PDict clean_state))
                   (history w ++ recorded ++ [Reply mensaje]
                      ++ delivery_events rc reach mensaje ++ [Saved clean_state]))
        else
          (inr ValueError,
           mkWorld st1 (JsonFile (PDict st1)) (history w ++ recorded))
    | inr e =>
        (inr e, mkWorld st1 (JsonFile (PDict st1)) (history w ++ recorded))
    end
  else (inl tt, mkWorld st1 (JsonFile (PDict st1)) (history w ++ recorded)).
Proof.
  intros st1 recorded Hk.
  unfold registrar, bind, state_setitem, save_state, reply_text,
    emit, get_state, ret, lift. cbn [state disk history].
  fold st1. unfold all_reported, recorded.
  destruct (forallb is_not_None (dict_values st1));
    [| rewrite <- app_assoc; reflexivity].
  cbn [state disk history].
  destruct (py_sum (dict_values st1)) as [total | e];
    [| rewrite <- app_assoc; reflexivity].
  destruct (keys_shape st1 Hk) as (v1 & v2 & v3 & v4 & v5 & v6 & Hs).
  clearbody st1. subst st1.
  cbn -[truthy report_chat_id format_int]. unfold format_int.
  destruct (int_fits_str total); [| rewrite <- app_assoc; reflexivity].
  cbn -[truthy report_chat_id].
  unfold delivery_events, try_except, send_message, raise.
  destruct (truthy rc); cbn -[report_chat_id].
  - destruct (report_chat_id rc) as [c | e] eqn:Hc; cbn.
    + destruct (reach c); cbn; rewrite <- !app_assoc; reflexivity.
    + assert (He : is_Exception e = true).
      { unfold report_chat_id, int_of_str in Hc.
        destruct rc as [s |]; [destruct (py_int s) |]; inversion Hc; reflexivity. }
      rewrite He. cbn. rewrite <- !app_assoc. reflexivity.
  - rewrite <- !app_assoc. reflexivity.
Qed.

(** An update that is not a valid report: replies at most. *)
Lemma quiet_update (rc : option string) (reach : Z -> bool) (u : update)
  (w : world) :
  keys_ok (state w) -> valid_report u = false ->
  exists h, process_update rc reach u w = with_history w h /\
            forallb (fun e => negb (is_completion_event e)) h = true.
Proof.
  intros Hk Hv. destruct u as [cmd a c].
  unfold valid_report in Hv. cbn [command args] in Hv.
  unfold process_update, handlers. cbn [find_handler command args chat].
  destruct (String.eqb cmd "start"); [exists [Reply MsgAyuda]; split; reflexivity |].
  destruct (String.eqb cmd "help"); [exists [Reply MsgAyuda]; split; reflexivity |].
  destruct (String.eqb cmd "asistencia").
  { rewrite asistencia_cmd_parse. cbn [command args chat]. cbn [andb] in Hv.
    destruct (parse_report a) as [m | p] eqn:Hp; [| discriminate Hv].
    apply parse_report_inl in Hp.
    exists [Reply m]. split; [reflexivity |]. now destruct m. }
  destruct (String.eqb cmd "estado").
  { rewrite (estado_run w Hk). eexists. split; reflexivity. }
  destruct (String.eqb cmd "getchatid");
    [exists [Reply (MsgChatId c)]; split; reflexivity |].
  exists []. split; [| reflexivity].
  unfold with_history. rewrite app_nil_r. now destruct w.
Qed.



(** ** Loading *)

Lemma collect_total {A B : Type} (f : A -> result B) (h : A -> B) (l : list A) :
  (forall x, f x = inl (h x)) -> collect f l = inl (map h l).
Proof.
  intros Hf. induction l as [| x l IH]; cbn; [reflexivity |].
  now rewrite Hf, IH.
Qed.

Lemma forallb_over_map {A B : Type} (p : B -> bool) (f : A -> B) (l : list A) :
  forallb p (map f l) = forallb (fun x => p (f x)) l.
Proof. induction l as [| x l IH]; cbn; [reflexivity | now rewrite IH]. Qed.

Lemma load_state_object (d : pydict) :
  load_state (JsonFile (PDict d))
  = (inl (map (fun g => (g, dict_get d g)) GROUPS), []).
Proof.
  unfold load_state, load_state_try. cbn [path_exists json_load py_get].
  rewrite (collect_total _ (fun g => (g, dict_get d g))); [reflexivity |].
  intros g. now destruct (dict_get d g).
Qed.

Lemma load_state_not_object (data : pyval) :
  (forall d, data <> PDict d) ->
  load_state (JsonFile data) = (inl clean_state, [LogLoadFailed]).
Proof.
  intros H. destruct data; try reflexivity. now destruct (H items).
Qed.

Lemma load_state_bad (e : read_error) :
  load_state (BadFile e) = (inl clean_state, [LogLoadFailed]).
Proof. now destruct e. Qed.

Lemma load_state_keys (f : data_file) :
  exists st logs, load_state f = (inl st, logs) /\ keys_ok st.
Proof.
  destruct f as [| e | data].
  - exists clean_state, []. split; reflexivity.
  - exists clean_state, [LogLoadFailed]. split; [apply load_state_bad | reflexivity].
  - destruct data;
      try (exists clean_state, [LogLoadFailed]; split; reflexivity).
    exists (map (fun g => (g, dict_get items g)) GROUPS), [].
    split; [apply load_state_object |].
    unfold keys_ok, dict_keys. rewrite List.map_map. cbn [fst]. apply List.map_id.
Qed.

Lemma load_state_counts (f : data_file) (st : pydict) (logs : list log_record) :
  load_state f = (inl st, logs) -> file_counts_ok f -> counts_ok st.
Proof.
  intros Hl Hf. destruct f as [| e | data].
  - injection Hl as <- _. reflexivity.
  - rewrite load_state_bad in Hl. injection Hl as <- _. reflexivity.
  - destruct data; try (injection Hl as <- _; reflexivity).
    rewrite load_state_object in Hl.
    assert (E : st = map (fun g => (g, dict_get items g)) GROUPS) by congruence.
    subst st. unfold counts_ok, dict_values. rewrite List.map_map. cbn [snd].
    cbn [file_counts_ok] in Hf. now rewrite forallb_over_map.
Qed.

(** ** One update *)

Lemma process_update_report (rc : option string) (reach : Z -> bool)
  (g raw : string) (n c : Z) (w : world) :
  keys_ok (state w) ->
  str_in g GROUPS = true -> py_int raw = Some n -> 0 <= n ->
  let st1 := dict_setitem (state w) g (PInt n) in
  let recorded := [Saved st1; Reply (MsgReporto g n)] in
  process_update rc reach (mkUpdate "asistencia" [g; raw] c) w =
  if all_reported st1 then
    match py_sum (dict_values st1) with
    | inl total =>
        if int_fits_str total then
          let mensaje := MsgResumen st1 total in
          mkWorld clean_state (JsonFile (PDict clean_state))
                  (history w ++ recorded ++ [Reply mensaje]
                     ++ delivery_events rc reach mensaje ++ [Saved clean_state])
        else
          mkWorld st1 (JsonFile (PDict st1))
                  (history w ++ recorded ++ [Logged (LogHandlerError ValueError)])
    | inr e =>
        mkWorld st1 (JsonFile (PDict st1))
                (history w ++ recorded ++ [Logged (LogHandlerError e)])
    end
  else mkWorld st1 (JsonFile (PDict st1)) (history w ++ recorded).
Proof.
  intros Hk Hg Hn Hpos st1 recorded.
  unfold process_update, handlers. cbn [find_handler command args String.eqb Ascii.eqb Bool.eqb].
  rewrite asistencia_cmd_parse, (parse_report_valid g raw n Hg Hn Hpos).
  rewrite registrar_run by (now apply keys_ok_setitem).
  fold st1. destruct (all_reported st1); [| reflexivity].
  destruct (py_sum (dict_values st1)) as [total | e];
    [destruct (int_fits_str total); [reflexivity |] |];
    cbn [state disk history]; now rewrite <- app_assoc.
Qed.

Lemma py_sum_six (v1 v2 v3 v4 v5 v6 : Z) :
  py_sum (dict_values (six (PInt v1) (PInt v2) (PInt v3) (PInt v4) (PInt v5) (PInt v6)))
  = inl (v1 + v2 + v3 + v4 + v5 + v6).
Proof. cbn. f_equal. Qed.

Lemma valid_report_inv (u : update) :
  valid_report u = true ->
  exists g raw n, u = mkUpdate "asistencia" [g; raw] (chat u) /\
                  str_in g GROUPS = true /\ py_int raw = Some n /\ 0 <= n.
Proof.
  destruct u as [cmd a c]. unfold valid_report. cbn [command args chat].
  intros H. apply andb_true_iff in H as [Hc Hp].
  apply String.eqb_eq in Hc. subst cmd.
  destruct (parse_report a) as [m | [g n]] eqn:E; [discriminate Hp |].
  destruct (parse_report_inr a g n E) as [raw [-> [Hg [Hn Hpos]]]].
  now exists g, raw, n.
Qed.

(** What one update can do to the dict and the file. *)
Lemma process_update_cases (rc : option string) (reach : Z -> bool)
  (u : update) (w : world) :
  keys_ok (state w) ->
  (exists h, process_update rc reach u w = with_history w h) \/
  (exists g n h s',
      str_in g GROUPS = true /\ 0 <= n /\
      process_update rc reach u w
      = mkWorld s' (JsonFile (PDict s')) (history w ++ h) /\
      (s' = dict_setitem (state w) g (PInt n) \/ s' = clean_state)).
Proof.
  intros Hk. destruct (valid_report u) eqn:Hv.
  - right. destruct (valid_report_inv u Hv) as (g & raw & n & -> & Hg & Hn & Hpos).
    exists g, n. rewrite (process_update_report rc reach g raw n _ w Hk Hg Hn Hpos).
    destruct (all_reported _);
      [destruct (py_sum _) as [total | e]; [destruct (int_fits_str total) |] |];
      eexists _, _; repeat split; eauto.
  - left. destruct (quiet_update rc reach u w Hk Hv) as [h [E _]]. eauto.
Qed.

Lemma process_update_keys (rc : option string) (reach : Z -> bool)
  (u : update) (w : world) :
  keys_ok (state w) -> keys_ok (state (process_update rc reach u w)).
Proof.
  intros Hk.
  destruct (process_update_cases rc reach u w Hk)
    as [[h ->] | (g & n & h & s' & Hg & Hn & -> & [-> | ->])]; cbn [state with_history].
  - exact Hk.
  - now apply keys_ok_setitem.
  - reflexivity.
Qed.

Lemma process_update_invariant (rc : option string) (reach : Z -> bool)
  (u : update) (w : world) :
  attendance_state (state w) ->
  attendance_state (state (process_update rc reach u w)).
Proof.
  intros Hinv.
  destruct (process_update_cases rc reach u w (proj1 Hinv))
    as [[h ->] | (g & n & h & s' & Hg & Hn & -> & [-> | ->])]; cbn [state with_history].
  - exact Hinv.
  - now apply attendance_state_setitem.
  - apply attendance_state_clean.
Qed.

Lemma file_counts_of_state (st : pydict) :
  attendance_state st -> file_counts_ok (JsonFile (PDict st)).
Proof.
  intros [Hk Hc].
  destruct (keys_shape st Hk) as (v1 & v2 & v3 & v4 & v5 & v6 & ->).
  unfold counts_ok in Hc. cbn -[is_count] in *. exact Hc.
Qed.

Lemma process_update_file (rc : option string) (reach : Z -> bool)
  (u : update) (w : world) :
  attendance_state (state w) -> file_counts_ok (disk w) ->
  file_counts_ok (disk (process_update rc reach u w)).
Proof.
  intros Hinv Hf.
  destruct (process_update_cases rc reach u w (proj1 Hinv))
    as [[h ->] | (g & n & h & s' & Hg & Hn & -> & [-> | ->])]; cbn [disk with_history].
  - exact Hf.
  - apply file_counts_of_state. now apply attendance_state_setitem.
  - apply file_counts_of_state, attendance_state_clean.
Qed.

(** A valid report that leaves no group pending. *)
Lemma report_completes (rc : option string) (reach : Z -> bool)
  (w : world) (g raw : string) (n c : Z) :
  attendance_state (state w) ->
  str_in g GROUPS = true -> py_int raw = Some n -> 0 <= n ->
  all_reported (dict_setitem (state w) g (PInt n)) = true ->
  total_fits (dict_setitem (state w) g (PInt n)) = true ->
  exists v1 v2 v3 v4 v5 v6 : Z,
    let st1 := six (PInt v1) (PInt v2) (PInt v3) (PInt v4) (PInt v5) (PInt v6) in
    let mensaje := MsgResumen st1 (v1 + v2 + v3 + v4 + v5 + v6) in
    dict_setitem (state w) g (PInt n) = st1 /\
    process_update rc reach (mkUpdate "asistencia" [g; raw] c) w
    = mkWorld clean_state (JsonFile (PDict clean_state))
        (history w ++ [Saved st1; Reply (MsgReporto g n); Reply mensaje]
           ++ delivery_events rc reach mensaje ++ [Saved clean_state]).
Proof.
  intros Hinv Hg Hn Hpos Hall Hfit.
  destruct (reported_counts_shape _ (attendance_state_setitem _ g n Hinv Hg Hpos) Hall)
    as (v1 & v2 & v3 & v4 & v5 & v6 & Hs & _).
  exists v1, v2, v3, v4, v5, v6. cbv zeta. split; [exact Hs |].
  rewrite (process_update_report rc reach g raw n c w (proj1 Hinv) Hg Hn Hpos).
  unfold total_fits in Hfit. rewrite Hs, py_sum_six in Hfit.
  rewrite Hall, Hs, py_sum_six, Hfit. reflexivity.
Qed.

Lemma delivery_events_failed (rc : option string) (reach : Z -> bool) (m : message) :
  delivery_fails rc reach = true ->
  delivery_events rc reach m = [Logged LogSendFailed; Reply MsgFalloEnvio].
Proof.
  unfold delivery_fails, delivery_events.
  destruct (truthy rc); [| discriminate]. cbn [andb].
  destruct (report_chat_id rc) as [c | e]; [| reflexivity].
  destruct (reach c); [discriminate | reflexivity].
Qed.



(** ** The digit limit of [str] *)

Lemma str_digit_bound_large : 1000000 < str_digit_bound.
Proof.
  unfold str_digit_bound.
  apply Z.lt_le_trans with (10 ^ 7); [reflexivity |].
  apply Z.pow_le_mono_r; [reflexivity | discriminate].
Qed.

Lemma small_int_fits (z : Z) : Z.abs z < 1000000 -> int_fits_str z = true.
Proof.
  intros H. unfold int_fits_str. apply Z.ltb_lt.
  pose proof str_digit_bound_large. lia.
Qed.

Lemma small_total_fits (st : pydict) (t : Z) :
  py_sum (dict_values st) = inl t -> Z.abs t < 1000000 -> total_fits st = true.
Proof. intros Hs Ht. unfold total_fits. rewrite Hs. now apply small_int_fits. Qed.

Lemma largest_count_nonneg : (0 <=? largest_count) = true.
Proof.
  apply Z.leb_le. unfold largest_count. pose proof str_digit_bound_large. lia.
Qed.

Lemma largest_count_overflows (z : Z) :
  z = largest_count + 1 -> int_fits_str z = false.
Proof.
  intros ->. unfold int_fits_str, largest_count. apply Z.ltb_ge.
  pose proof str_digit_bound_large. lia.
Qed.

Lemma large_pending_invariant : attendance_state (state large_pending).
Proof.
  split; [reflexivity |]. unfold counts_ok.
  cbn -[largest_count Z.leb]. rewrite largest_count_nonneg. reflexivity.
Qed.

Lemma large_pending_total :
  total_fits (dict_setitem (state large_pending) "1" (PInt 1)) = false.
Proof.
  change (dict_setitem (state large_pending) "1" (PInt 1))
    with (six (PInt 1) (PInt largest_count) (PInt 0) (PInt 0) (PInt 0) (PInt 0)).
  unfold total_fits. rewrite py_sum_six. apply largest_count_overflows. lia.
Qed.

(** A report that leaves six counts in the dict, run on the counts. *)
Lemma process_update_six (rc : option string) (reach : Z -> bool)
  (g raw : string) (n c : Z) (w : world) (v1 v2 v3 v4 v5 v6 : Z) :
  keys_ok (state w) ->
  str_in g GROUPS = true -> py_int raw = Some n -> 0 <= n ->
  dict_setitem (state w) g (PInt n)
  = six (PInt v1) (PInt v2) (PInt v3) (PInt v4) (PInt v5) (PInt v6) ->
  let st1 := six (PInt v1) (PInt v2) (PInt v3) (PInt v4) (PInt v5) (PInt v6) in
  let total := v1 + v2 + v3 + v4 + v5 + v6 in
  process_update rc reach (mkUpdate "asistencia" [g; raw] c) w =
  if int_fits_str total then
    mkWorld clean_state (JsonFile (PDict clean_state))
      (history w ++ [Saved st1; Reply (MsgReporto g n)]
         ++ [Reply (MsgResumen st1 total)]
         ++ delivery_events rc reach (MsgResumen st1 total) ++ [Saved clean_state])
  else
    mkWorld st1 (JsonFile (PDict st1))
      (history w ++ [Saved st1; Reply (MsgReporto g n)]
         ++ [Logged (LogHandlerError ValueError)]).
Proof.
  intros Hk Hg Hn Hpos Hs st1 total.
  rewrite (process_update_report rc reach g raw n c w Hk Hg Hn Hpos).
  rewrite Hs, py_sum_six. reflexivity.
Qed.

(** * The claims *)

Lemma last_snoc {A : Type} (l : list A) (x d : A) : last (l ++ [x]) d = x.
Proof.
  induction l as [| y l IH]; [reflexivity |].
  cbn [app]. destruct (l ++ [x])%list eqn:E; [now destruct l | exact IH].
Qed.

(** C1 (as the code has it).  For a group [g] of "1".."6" and a count
    [n >= 0] written as a string that [int] reads as [n]: when some
    group other than [g] is still pending, handling [/asistencia g n]
    and then [/estado] ends with a status message whose line for [g] is
    "reported, n". *)
Theorem report_then_status (rc : option string) (reach : Z -> bool)
  (w : world) (g raw : string) (n c1 c2 : Z) (a2 : list string) :
  keys_ok (state w) ->
  str_in g GROUPS = true -> py_int raw = Some n -> 0 <= n ->
  other_pending (state w) g = true ->
  status_shown
    (run_polling rc reach
       [mkUpdate "asistencia" [g; raw] c1; mkUpdate "estado" a2 c2] w) g
  = Some (Reportado g (PInt n)).
Proof.
  intros Hk Hg Hn Hpos Hp.
  unfold run_polling. cbn [fold_left].
  rewrite (process_update_report rc reach g raw n c1 w Hk Hg Hn Hpos).
  rewrite (other_pending_not_all _ _ _ Hk Hg Hp).
  set (st1 := dict_setitem (state w) g (PInt n)).
  assert (Hk1 : keys_ok st1) by now apply keys_ok_setitem.
  unfold process_update, handlers.
  cbn [find_handler command args String.eqb Ascii.eqb Bool.eqb].
  rewrite estado_run by exact Hk1.
  unfold status_shown, with_history. cbn [state disk history].
  rewrite last_snoc, find_fila_de by now apply str_in_In.
  unfold fila_de, st1. now rewrite dict_get_setitem_same.
Qed.

Lemma report_then_status_witness :
  keys_ok (state one_reported) /\
  str_in "3" GROUPS = true /\ py_int "12" = Some 12 /\ 0 <= 12 /\
  other_pending (state one_reported) "3" = true /\
  status_shown
    (run_polling None always_delivers
       [mkUpdate "asistencia" ["3"; "12"] 7; mkUpdate "estado" [] 7] one_reported) "3"
  = Some (Reportado "3" (PInt 12)).
Proof.
  do 5 (split; [first [reflexivity | lia] |]).
  apply (report_then_status None always_delivers one_reported "3" "12" 12 7 7 []);
    try reflexivity; lia.
Defined.

(** C1 as stated fails: with groups 2..6 reported, the report of group 1
    completes the round, the dict is cleared, and the status query that
    follows shows group 1 as pending. *)
Lemma report_filling_last_slot_shows_pending :
  keys_ok (state one_missing) /\
  str_in "1" GROUPS = true /\ py_int "5" = Some 5 /\ 0 <= 5 /\
  status_shown
    (run_polling None always_delivers
       [mkUpdate "asistencia" ["1"; "5"] 7; mkUpdate "estado" [] 7] one_missing) "1"
  = Some (Pendiente "1") /\
  status_shown
    (run_polling None always_delivers
       [mkUpdate "asistencia" ["1"; "5"] 7; mkUpdate "estado" [] 7] one_missing) "1"
  <> Some (Reportado "1" (PInt 5)).
Proof.
  do 3 (split; [reflexivity |]). split; [lia |].
  unfold run_polling. cbn [fold_left].
  rewrite (process_update_six None always_delivers "1" "5" 5 7 one_missing
             5 0 10 2 1 0 eq_refl eq_refl eq_refl ltac:(lia) eq_refl).
  rewrite small_int_fits by lia.
  assert (E : forall w,
             w = process_update None always_delivers (mkUpdate "estado" [] 7)
                   (mkWorld clean_state (JsonFile (PDict clean_state))
                      (history one_missing
                         ++ [Saved (six (PInt 5) (PInt 0) (PInt 10) (PInt 2)
                                      (PInt 1) (PInt 0));
                             Reply (MsgReporto "1" 5)]
                         ++ [Reply (MsgResumen
                                      (six (PInt 5) (PInt 0) (PInt 10) (PInt 2)
                                         (PInt 1) (PInt 0))
                                      (5 + 0 + 10 + 2 + 1 + 0))]
                         ++ delivery_events None always_delivers
                              (MsgResumen
                                 (six (PInt 5) (PInt 0) (PInt 10) (PInt 2)
                                    (PInt 1) (PInt 0))
                                 (5 + 0 + 10 + 2 + 1 + 0))
                         ++ [Saved clean_state])) ->
             status_shown w "1" = Some (Pendiente "1")).
  { intros w ->. reflexivity. }
  split; [now apply E |]. rewrite (E _ eq_refl). discriminate.
Qed.




(** The scenario of the specification: groups 2..6 reported 0, 10, 2, 1
    and 0, group 1 reports 5; the total is 18 and the next status query
    shows six pending groups. *)
Example scenario_total_18 :
  let w := process_update None always_delivers
             (mkUpdate "asistencia" ["1"; "5"] 7) one_missing in
  In (Reply (MsgResumen (six (PInt 5) (PInt 0) (PInt 10) (PInt 2) (PInt 1) (PInt 0)) 18))
     (history w) /\
  state w = clean_state.
Proof.
  cbv zeta.
  rewrite (process_update_six None always_delivers "1" "5" 5 7 one_missing
             5 0 10 2 1 0 eq_refl eq_refl eq_refl ltac:(lia) eq_refl).
  rewrite small_int_fits by lia.
  split; [right; right; left; reflexivity | reflexivity].
Qed.

(** C3.  An [/asistencia] with an argument count other than two, a
    group outside "1".."6", or a count that [int] refuses or reads as
    negative, gets one rejection reply; the dict and the file are the
    same afterwards and nothing was written. *)
Theorem invalid_report_rejected (rc : option string) (reach : Z -> bool)
  (w : world) (a : list string) :
  (List.length a <> 2%nat \/
   exists g raw, a = [g; raw] /\
     (str_in g GROUPS = false \/ py_int raw = None \/
      exists z, py_int raw = Some z /\ z < 0)) ->
  exists m, is_rejection m = true /\
    asistencia_cmd rc reach a w
    = (inl tt, mkWorld (state w) (disk w) (history w ++ [Reply m])).
Proof.
  intros H. rewrite asistencia_cmd_parse.
  assert (Hp : exists m, parse_report a = inl m).
  { destruct H as [Hlen | (g & raw & -> & Hbad)].
    - destruct a as [| x [| y [| z rest]]]; try (eexists; reflexivity).
      now destruct Hlen.
    - unfold parse_report. destruct Hbad as [Hg | [Hn | (z & Hn & Hneg)]].
      + rewrite Hg. eauto.
      + destruct (str_in g GROUPS); rewrite ?Hn; eauto.
      + destruct (str_in g GROUPS); rewrite ?Hn; [| eauto].
        apply Z.ltb_lt in Hneg. rewrite Hneg. eauto. }
  destruct Hp as [m Hp]. rewrite Hp. exists m.
  split; [exact (parse_report_inl a m Hp) | reflexivity].
Qed.

Lemma invalid_report_rejected_witness :
  (List.length ["2"; "-1"] <> 2%nat \/
   exists g raw, ["2"; "-1"] = [g; raw] /\
     (str_in g GROUPS = false \/ py_int raw = None \/
      exists z, py_int raw = Some z /\ z < 0)) /\
  exists m, is_rejection m = true /\
    asistencia_cmd None always_delivers ["2"; "-1"] one_reported
    = (inl tt, mkWorld (state one_reported) (disk one_reported)
                 (history one_reported ++ [Reply m])).
Proof.
  assert (H : List.length ["2"; "-1"] <> 2%nat \/
              exists g raw, ["2"; "-1"] = [g; raw] /\
                (str_in g GROUPS = false \/ py_int raw = None \/
                 exists z, py_int raw = Some z /\ z < 0)).
  { right. exists "2", "-1". split; [reflexivity |].
    right. right. exists (-1). split; [reflexivity | lia]. }
  split; [exact H |].
  exact (invalid_report_rejected None always_delivers one_reported ["2"; "-1"] H).
Defined.

(** The two rejection scenarios of the specification. *)
Example scenario_group_7 :
  asistencia_cmd None always_delivers ["7"; "3"] one_reported
  = (inl tt, with_history one_reported [Reply MsgGrupoInvalido]).
Proof. reflexivity. Qed.

Example scenario_minus_one :
  asistencia_cmd None always_delivers ["2"; "-1"] one_reported
  = (inl tt, with_history one_reported [Reply MsgNumeroInvalido]).
Proof. reflexivity. Qed.

(** C4.  [load_state] returns a dict for every file; when the file is
    missing, cannot be read or does not parse, that dict maps each of
    the six groups to [None]. *)
Theorem load_state_fails_open (f : data_file) :
  (exists st logs, load_state f = (inl st, logs)) /\
  (f = NoFile \/ (exists e, f = BadFile e) ->
   fst (load_state f) = inl (six PNone PNone PNone PNone PNone PNone)).
Proof.
  split.
  - destruct (load_state_keys f) as (st & logs & E & _). eauto.
  - intros [-> | [e ->]]; [reflexivity | now rewrite load_state_bad].
Qed.

Lemma load_state_fails_open_witness :
  (NoFile = NoFile \/ (exists e, NoFile = BadFile e)) /\
  (BadFile NotJson = NoFile \/ (exists e, BadFile NotJson = BadFile e)) /\
  fst (load_state NoFile) = inl (six PNone PNone PNone PNone PNone PNone) /\
  fst (load_state (BadFile NotJson)) = inl (six PNone PNone PNone PNone PNone PNone).
Proof.
  assert (H1 : NoFile = NoFile \/ (exists e, NoFile = BadFile e))
    by (left; reflexivity).
  assert (H2 : BadFile NotJson = NoFile \/ (exists e, BadFile NotJson = BadFile e))
    by (right; exists NotJson; reflexivity).
  split; [exact H1 |]. split; [exact H2 |]. split.
  - exact (proj2 (load_state_fails_open NoFile) H1).
  - exact (proj2 (load_state_fails_open (BadFile NotJson)) H2).
Defined.

(** C5 (as the code has it).  [load_state] returns a dict whose keys are
    the six group ids for every file, and every handler keeps that key
    set.  Every value is unset or a non-negative integer after a handler
    whenever it was so before, and after [load_state] whenever the file
    is missing, unreadable, not a JSON object, or holds null or a
    non-negative integer for each group; the file a handler leaves
    behind is again of that kind.  [load_state] copies what the file
    holds without checking it. *)
Theorem attendance_state_preserved (rc : option string) (reach : Z -> bool)
  (f : data_file) (u : update) (w : world) :
  (exists st logs, load_state f = (inl st, logs) /\ keys_ok st /\
                   (file_counts_ok f -> attendance_state st)) /\
  (keys_ok (state w) -> keys_ok (state (process_update rc reach u w))) /\
  (attendance_state (state w) ->
   attendance_state (state (process_update rc reach u w))) /\
  (attendance_state (state w) -> file_counts_ok (disk w) ->
   file_counts_ok (disk (process_update rc reach u w))).
Proof.
  split; [| split; [| split]].
  - destruct (load_state_keys f) as (st & logs & E & Hk).
    exists st, logs. repeat split; try assumption.
    now apply (load_state_counts f st logs).
  - apply process_update_keys.
  - apply process_update_invariant.
  - apply process_update_file.
Qed.

Lemma attendance_state_preserved_witness :
  file_counts_ok (JsonFile (PDict full_record)) /\
  attendance_state (state one_missing) /\
  file_counts_ok (disk one_missing) /\
  (exists st logs, load_state (JsonFile (PDict full_record)) = (inl st, logs) /\
                   attendance_state st) /\
  attendance_state
    (state (process_update None always_delivers
              (mkUpdate "asistencia" ["1"; "5"] 7) one_missing)) /\
  file_counts_ok
    (disk (process_update None always_delivers
             (mkUpdate "asistencia" ["1"; "5"] 7) one_missing)).
Proof.
  assert (Hf : file_counts_ok (JsonFile (PDict full_record))) by reflexivity.
  assert (Hs : attendance_state (state one_missing)) by (split; reflexivity).
  assert (Hd : file_counts_ok (disk one_missing)) by exact I.
  destruct (attendance_state_preserved None always_delivers
              (JsonFile (PDict full_record))
              (mkUpdate "asistencia" ["1"; "5"] 7) one_missing)
    as [(st & logs & E & Hk & Hc) [_ [H3 H4]]].
  split; [exact Hf |]. split; [exact Hs |]. split; [exact Hd |].
  split; [exists st, logs; split; [exact E | exact (Hc Hf)] |].
  split; [exact (H3 Hs) | exact (H4 Hs Hd)].
Defined.

(** C5 as stated fails for [load_state]: from a file that holds
    [{"1": -1}] it returns a dict in which group 1 is [-1], neither
    unset nor a non-negative integer. *)
Lemma load_state_negative_count :
  fst (load_state negative_file)
  = inl (six (PInt (-1)) PNone PNone PNone PNone PNone) /\
  ~ counts_ok (six (PInt (-1)) PNone PNone PNone PNone PNone) /\
  ~ attendance_state (six (PInt (-1)) PNone PNone PNone PNone PNone).
Proof.
  split; [reflexivity |]. split.
  - intros H. discriminate H.
  - intros [_ H]. discriminate H.
Qed.

(** C6.  When a summary has been built (no group pending, the total
    printable), the secondary destination is configured and the
    delivery of the summary fails, the failure is logged, the requester
    gets the warning, and then the dict is cleared and written as usual:
    the dict and the file end up the same for every configuration and
    every state of the transport. *)
Theorem broadcast_failure_keeps_reset (rc : option string) (reach : Z -> bool)
  (w : world) (g raw : string) (n c : Z) :
  attendance_state (state w) ->
  str_in g GROUPS = true -> py_int raw = Some n -> 0 <= n ->
  all_reported (dict_setitem (state w) g (PInt n)) = true ->
  total_fits (dict_setitem (state w) g (PInt n)) = true ->
  delivery_fails rc reach = true ->
  let u := mkUpdate "asistencia" [g; raw] c in
  let cleared := six PNone PNone PNone PNone PNone PNone in
  (exists h,
      history (process_update rc reach u w)
      = (history w ++ h
           ++ [Logged LogSendFailed; Reply MsgFalloEnvio; Saved cleared])%list) /\
  state (process_update rc reach u w) = cleared /\
  disk (process_update rc reach u w) = JsonFile (PDict cleared) /\
  forall rc' reach',
    state (process_update rc' reach' u w) = state (process_update rc reach u w) /\
    disk (process_update rc' reach' u w) = disk (process_update rc reach u w).
Proof.
  intros Hinv Hg Hn Hpos Hall Hfit Hfail u cleared.
  destruct (report_completes rc reach w g raw n c Hinv Hg Hn Hpos Hall Hfit)
    as (v1 & v2 & v3 & v4 & v5 & v6 & _ & E).
  cbv zeta in E. fold u in E. rewrite E.
  rewrite (delivery_events_failed rc reach _ Hfail). cbn [state disk history].
  split; [| split; [reflexivity | split; [reflexivity |]]].
  - eexists. reflexivity.
  - intros rc' reach'.
    destruct (report_completes rc' reach' w g raw n c Hinv Hg Hn Hpos Hall Hfit)
      as (x1 & x2 & x3 & x4 & x5 & x6 & _ & E').
    cbv zeta in E'. fold u in E'. rewrite E'. split; reflexivity.
Qed.

Lemma broadcast_failure_keeps_reset_witness :
  attendance_state (state one_missing) /\
  str_in "1" GROUPS = true /\ py_int "5" = Some 5 /\ 0 <= 5 /\
  all_reported (dict_setitem (state one_missing) "1" (PInt 5)) = true /\
  total_fits (dict_setitem (state one_missing) "1" (PInt 5)) = true /\
  delivery_fails (Some "-1001") never_delivers = true /\
  state (process_update (Some "-1001") never_delivers
           (mkUpdate "asistencia" ["1"; "5"] 7) one_missing)
  = six PNone PNone PNone PNone PNone PNone /\
  state (process_update (Some "-1001") always_delivers
           (mkUpdate "asistencia" ["1"; "5"] 7) one_missing)
  = state (process_update (Some "-1001") never_delivers
             (mkUpdate "asistencia" ["1"; "5"] 7) one_missing).
Proof.
  assert (Hs : attendance_state (state one_missing)) by (split; reflexivity).
  assert (Hall : all_reported (dict_setitem (state one_missing) "1" (PInt 5)) = true)
    by reflexivity.
  assert (Hn : py_int "5" = Some 5) by reflexivity.
  assert (Hf : delivery_fails (Some "-1001") never_delivers = true) by reflexivity.
  assert (Hfit : total_fits (dict_setitem (state one_missing) "1" (PInt 5)) = true)
    by (apply small_total_fits with (t := 18); [reflexivity | lia]).
  destruct (broadcast_failure_keeps_reset (Some "-1001") never_delivers one_missing
              "1" "5" 5 7 Hs eq_refl Hn ltac:(lia) Hall Hfit Hf)
    as [_ [H2 [_ H4]]].
  split; [exact Hs |]. do 2 (split; [reflexivity |]). split; [lia |].
  split; [exact Hall |]. split; [exact Hfit |]. split; [exact Hf |].
  split; [exact H2 |].
  exact (proj1 (H4 (Some "-1001") always_delivers)).
Defined.

(** The failed delivery, run: the warning is sent and the dict is
    cleared and written afterwards. *)
Example failed_delivery_run :
  history (process_update (Some "-1001") never_delivers
             (mkUpdate "asistencia" ["1"; "5"] 7) one_missing)
  = let st1 := six (PInt 5) (PInt 0) (PInt 10) (PInt 2) (PInt 1) (PInt 0) in
    [Saved st1; Reply (MsgReporto "1" 5); Reply (MsgResumen st1 18);
     Logged LogSendFailed; Reply MsgFalloEnvio; Saved clean_state].
Proof.
  rewrite (process_update_six (Some "-1001") never_delivers "1" "5" 5 7 one_missing
             5 0 10 2 1 0 eq_refl eq_refl eq_refl ltac:(lia) eq_refl).
  rewrite small_int_fits by lia. reflexivity.
Qed.

(** C7.  Without [TELEGRAM_TOKEN], or with an empty one, the module
    raises [SystemExit] before any update is handled, whatever updates
    are waiting.  With a token the file is loaded and the updates are
    served, also when [REPORT_CHAT_ID] is not set. *)
Theorem token_required (getenv : string -> option string) (reach : Z -> bool)
  (f : data_file) (updates : list update) :
  (getenv "TELEGRAM_TOKEN" = None \/ getenv "TELEGRAM_TOKEN" = Some "" ->
   bot getenv reach f updates
   = Aborted (SystemExit "TELEGRAM_TOKEN missing") [LogTokenMissing]) /\
  (forall token, getenv "TELEGRAM_TOKEN" = Some token -> token <> "" ->
   getenv "REPORT_CHAT_ID" = None ->
   exists st logs,
     load_state f = (inl st, logs) /\
     bot getenv reach f updates
     = Served (run_polling None reach updates
                 (mkWorld st f
                    (map Logged ([LogNoReportChat] ++ logs ++ [LogStarted]))))).
Proof.
  split.
  - intros [H | H]; unfold bot; rewrite H; reflexivity.
  - intros token Ht Hne Hr. unfold bot. rewrite Ht, Hr.
    apply String.eqb_neq in Hne. cbn [truthy]. rewrite Hne. cbn [negb].
    destruct (load_state_keys f) as (st & logs & E & _).
    exists st, logs. split; [exact E |]. now rewrite E.
Qed.

Lemma token_required_witness :
  (sample_env None None "TELEGRAM_TOKEN" = None \/
   sample_env None None "TELEGRAM_TOKEN" = Some "") /\
  sample_env (Some "123:abc") None "TELEGRAM_TOKEN" = Some "123:abc" /\
  "123:abc" <> "" /\
  sample_env (Some "123:abc") None "REPORT_CHAT_ID" = None /\
  bot (sample_env None None) always_delivers NoFile [mkUpdate "estado" [] 7]
  = Aborted (SystemExit "TELEGRAM_TOKEN missing") [LogTokenMissing] /\
  exists st logs,
    load_state NoFile = (inl st, logs) /\
    bot (sample_env (Some "123:abc") None) always_delivers NoFile
      [mkUpdate "estado" [] 7]
    = Served (run_polling None always_delivers [mkUpdate "estado" [] 7]
                (mkWorld st NoFile
                   (map Logged ([LogNoReportChat] ++ logs ++ [LogStarted])))).
Proof.
  assert (H1 : sample_env None None "TELEGRAM_TOKEN" = None \/
               sample_env None None "TELEGRAM_TOKEN" = Some "")
    by (left; reflexivity).
  assert (H3 : "123:abc" <> "") by discriminate.
  split; [exact H1 |]. split; [reflexivity |]. split; [exact H3 |].
  split; [reflexivity |]. split.
  - exact (proj1 (token_required (sample_env None None) always_delivers NoFile
                    [mkUpdate "estado" [] 7]) H1).
  - exact (proj2 (token_required (sample_env (Some "123:abc") None) always_delivers
                    NoFile [mkUpdate "estado" [] 7])
             "123:abc" eq_refl H3 eq_refl).
Defined.

(** C8.  [/estado] changes neither the dict nor the file and writes
    nothing: at most it adds its one reply to the history.  With the
    six keys in place the reply has one line per group, "pending" for
    an unset group and "reported" with the stored value otherwise. *)
Theorem estado_read_only (w : world) :
  (exists r h,
      estado w = (r, mkWorld (state w) (disk w) (history w ++ h)) /\
      (h = [] \/ exists filas, h = [Reply (MsgEstado filas)])) /\
  (keys_ok (state w) ->
   estado w
   = (inl tt,
      mkWorld (state w) (disk w)
        (history w ++ [Reply (MsgEstado (map (fila_de (state w)) GROUPS))]))) /\
  (forall g,
      (dict_get (state w) g = PNone -> fila_de (state w) g = Pendiente g) /\
      (forall k, dict_get (state w) g = PInt k ->
                 fila_de (state w) g = Reportado g (PInt k))).
Proof.
  split; [| split].
  - destruct (estado_frame w) as (r & h & E & Hh). exists r, h. now split.
  - intros Hk. now rewrite estado_run.
  - intros g. unfold fila_de. split.
    + now intros ->.
    + now intros k ->.
Qed.

Lemma estado_read_only_witness :
  keys_ok (state one_reported) /\
  dict_get (state one_reported) "1" = PNone /\
  dict_get (state one_reported) "2" = PInt 4 /\
  estado one_reported
  = (inl tt,
     mkWorld (state one_reported) (disk one_reported)
       (history one_reported
          ++ [Reply (MsgEstado (map (fila_de (state one_reported)) GROUPS))])) /\
  fila_de (state one_reported) "1" = Pendiente "1" /\
  fila_de (state one_reported) "2" = Reportado "2" (PInt 4).
Proof.
  assert (Hk : keys_ok (state one_reported)) by reflexivity.
  assert (H1 : dict_get (state one_reported) "1" = PNone) by reflexivity.
  assert (H2 : dict_get (state one_reported) "2" = PInt 4) by reflexivity.
  destruct (estado_read_only one_reported) as [_ [Hrun Hrows]].
  split; [exact Hk |]. split; [exact H1 |]. split; [exact H2 |].
  split; [exact (Hrun Hk) |].
  split; [exact (proj1 (Hrows "1") H1) | exact (proj2 (Hrows "2") 4 H2)].
Defined.

(** C9.  The count is whatever [int] makes of the second argument:
    every string that [int] reads as some [z >= 0] is recorded for the
    group and acknowledged with [z]; "+5" is read as 5 and "1_000" as
    1000.  The group is compared with the six strings "1".."6"; "01" is
    refused. *)
Theorem count_follows_int_parsing (rc : option string) (reach : Z -> bool)
  (w : world) (g raw : string) (z : Z) :
  (keys_ok (state w) ->
   str_in g GROUPS = true -> py_int raw = Some z -> 0 <= z ->
   exists r w' h,
     asistencia_cmd rc reach [g; raw] w = (r, w') /\
     history w'
     = (history w
          ++ [Saved (dict_setitem (state w) g (PInt z)); Reply (MsgReporto g z)]
          ++ h)%list) /\
  py_int "+5" = Some 5 /\
  py_int "1_000" = Some 1000 /\
  (str_in g GROUPS = true <->
   g = "1" \/ g = "2" \/ g = "3" \/ g = "4" \/ g = "5" \/ g = "6") /\
  str_in "01" GROUPS = false /\
  asistencia_cmd rc reach ["01"; raw] w
  = (inl tt, mkWorld (state w) (disk w) (history w ++ [Reply MsgGrupoInvalido])).
Proof.
  split; [| split; [reflexivity | split; [reflexivity | split;
    [apply str_in_GROUPS | split; [reflexivity |]]]]].
  - intros Hk Hg Hn Hpos.
    rewrite asistencia_cmd_parse, (parse_report_valid g raw z Hg Hn Hpos).
    rewrite registrar_run by (now apply keys_ok_setitem).
    destruct (all_reported _);
      [destruct (py_sum _) as [total | e]; [destruct (int_fits_str total) |] |];
      eexists _, _, _; (split; [reflexivity |]); cbn [history].
    + reflexivity.
    + instantiate (1 := []). now rewrite app_nil_r.
    + instantiate (1 := []). now rewrite app_nil_r.
    + instantiate (1 := []). now rewrite app_nil_r.
  - now rewrite asistencia_cmd_parse.
Qed.

Lemma count_follows_int_parsing_witness :
  keys_ok (state one_reported) /\
  str_in "3" GROUPS = true /\ py_int "+5" = Some 5 /\ 0 <= 5 /\
  exists r w' h,
    asistencia_cmd None always_delivers ["3"; "+5"] one_reported = (r, w') /\
    history w'
    = (history one_reported
         ++ [Saved (dict_setitem (state one_reported) "3" (PInt 5));
             Reply (MsgReporto "3" 5)]
         ++ h)%list.
Proof.
  do 3 (split; [reflexivity |]). split; [lia |].
  apply (proj1 (count_follows_int_parsing None always_delivers one_reported
                  "3" "+5" 5)); try reflexivity; lia.
Defined.

Example underscore_count_accepted :
  state (process_update None always_delivers
           (mkUpdate "asistencia" ["3"; "1_000"] 7) one_reported)
  = six PNone (PInt 4) (PInt 1000) PNone PNone PNone.
Proof. reflexivity. Qed.




(** The same start, run: the loaded dict is shown as fully reported and
    the report of group 2 produces the summary with total 26. *)
Example loaded_full_run :
  match bot (sample_env (Some "123:abc") None) always_delivers
          (JsonFile (PDict full_record))
          [mkUpdate "estado" [] 7; mkUpdate "asistencia" ["2"; "8"] 7] with
  | Served w =>
      history w
      = [Logged LogNoReportChat; Logged LogStarted;
         Reply (MsgEstado (map (fila_de full_record) GROUPS));
         Saved (six (PInt 5) (PInt 8) (PInt 10) (PInt 2) (PInt 1) (PInt 0));
         Reply (MsgReporto "2" 8);
         Reply (MsgResumen
                  (six (PInt 5) (PInt 8) (PInt 10) (PInt 2) (PInt 1) (PInt 0)) 26);
         Saved clean_state]
  | Aborted _ _ => False
  end.
Proof.
  unfold bot. cbn [sample_env String.eqb Ascii.eqb Bool.eqb truthy negb].
  rewrite load_state_object. unfold run_polling. cbn [fold_left].
  rewrite (process_update_six None always_delivers "2" "8" 8 7 _ 5 8 10 2 1 0)
    by first [reflexivity | lia].
  rewrite small_int_fits by lia. reflexivity.
Qed.

(** * Further properties of the handlers *)

(** ** Saving and loading *)

Lemma load_of_saved (st : pydict) :
  keys_ok st -> load_state (JsonFile (PDict st)) = (inl st, []).
Proof.
  intros Hk. rewrite load_state_object.
  destruct (keys_shape st Hk) as (v1 & v2 & v3 & v4 & v5 & v6 & ->).
  reflexivity.
Qed.

(** X1.  What [save_state] writes, [load_state] reads back: for a dict
    with the six group keys the loaded dict is the saved one and nothing
    is logged. *)
Theorem save_then_load (w : world) :
  keys_ok (state w) ->
  load_state (disk (snd (save_state w))) = (inl (state w), []).
Proof. intros Hk. cbn [save_state snd disk]. now apply load_of_saved. Qed.

Lemma save_then_load_witness :
  keys_ok (state text_in_slot) /\
  load_state (disk (snd (save_state text_in_slot)))
  = (inl (state text_in_slot), []).
Proof.
  split; [reflexivity |]. apply (save_then_load text_in_slot). reflexivity.
Defined.

Lemma bot_served (getenv : string -> option string) (reach : Z -> bool)
  (f : data_file) (us : list update) (w : world) :
  bot getenv reach f us = Served w ->
  exists st logs h,
    load_state f = (inl st, logs) /\
    w = run_polling (getenv "REPORT_CHAT_ID") reach us (mkWorld st f h).
Proof.
  unfold bot. destruct (negb (truthy (getenv "TELEGRAM_TOKEN"))); [discriminate |].
  destruct (load_state_keys f) as (st & logs & E & _). rewrite E.
  intros H. injection H as <-. now eexists _, _, _.
Qed.

(** X3.  A file that parses but is not a JSON object (a list, a string,
    a number, true, false, null) is treated like a corrupt one: the
    failure is logged and every group starts unset. *)
Theorem non_object_file_resets (data : pyval) :
  match data with
  | PDict _ => True
  | _ => load_state (JsonFile data) = (inl clean_state, [LogLoadFailed])
  end.
Proof. destruct data; first [exact I | reflexivity]. Qed.

(** X4.  From a JSON object [load_state] takes, for each of the six
    groups, the stored value, or [None] when the key is missing or null;
    keys that are not group ids are dropped. *)
Theorem load_state_per_group (d : pydict) :
  exists st,
    load_state (JsonFile (PDict d)) = (inl st, []) /\
    dict_keys st = GROUPS /\
    (forall g, In g GROUPS -> dict_get st g = dict_get d g) /\
    (forall k, ~ In k GROUPS -> dict_find st k = None).
Proof.
  exists (map (fun g => (g, dict_get d g)) GROUPS).
  split; [apply load_state_object |]. split; [| split].
  - unfold dict_keys. rewrite List.map_map. cbn [fst]. apply List.map_id.
  - intros g Hg. apply str_in_In, str_in_GROUPS in Hg.
    destruct Hg as [-> | [-> | [-> | [-> | [-> | ->]]]]]; reflexivity.
  - intros k Hk. induction GROUPS as [| g gs IH]; [reflexivity |].
    cbn [map dict_find]. destruct (String.eqb k g) eqn:E.
    + apply String.eqb_eq in E. subst g. destruct Hk. now left.
    + apply IH. intros Hin. apply Hk. now right.
Qed.

Lemma load_state_per_group_witness :
  In "2" GROUPS /\ ~ In "nota" GROUPS /\
  exists st,
    load_state (JsonFile (PDict [("nota", PStr "x"); ("2", PInt 4)])) = (inl st, []) /\
    dict_get st "2" = PInt 4 /\ dict_find st "nota" = None.
Proof.
  assert (H2 : In "2" GROUPS) by (right; left; reflexivity).
  assert (Hn : ~ In "nota" GROUPS).
  { intros H. repeat (destruct H as [H | H]; [discriminate H |]). exact H. }
  split; [exact H2 |]. split; [exact Hn |].
  destruct (load_state_per_group [("nota", PStr "x"); ("2", PInt 4)])
    as (st & E & _ & Hg & Hk).
  exists st. split; [exact E |]. split; [exact (Hg "2" H2) | exact (Hk "nota" Hn)].
Defined.

(** X5.  Whatever file the bot starts from and whatever updates it
    handles, the dict keeps the six group keys; when the file held only
    null or non-negative integers for the groups, every value stays
    unset or a non-negative integer and so does what is written. *)
Theorem run_keeps_invariant (getenv : string -> option string)
  (reach : Z -> bool) (f : data_file) (us : list update) (w : world) :
  bot getenv reach f us = Served w ->
  keys_ok (state w) /\
  (file_counts_ok f -> attendance_state (state w) /\ file_counts_ok (disk w)).
Proof.
  intros H. destruct (bot_served getenv reach f us w H) as (st & logs & h & E & ->).
  destruct (load_state_keys f) as (st' & logs' & E' & Hk).
  assert (st' = st) by congruence. subst st'.
  set (rc := getenv "REPORT_CHAT_ID"). clearbody rc. clear H E'.
  assert (Hgen : forall w0,
             keys_ok (state w0) ->
             keys_ok (state (run_polling rc reach us w0)) /\
             (attendance_state (state w0) -> file_counts_ok (disk w0) ->
              attendance_state (state (run_polling rc reach us w0)) /\
              file_counts_ok (disk (run_polling rc reach us w0)))).
  { induction us as [| u us IH]; intros w0 Hk0; [now split |].
    unfold run_polling. cbn [fold_left].
    destruct (IH (process_update rc reach u w0)) as [IH1 IH2];
      [now apply process_update_keys |].
    split; [exact IH1 |]. intros Hinv Hf. apply IH2.
    - now apply process_update_invariant.
    - now apply process_update_file. }
  destruct (Hgen (mkWorld st f h) Hk) as [H1 H2]. split; [exact H1 |].
  intros Hf. apply H2; [| exact Hf].
  split; [exact Hk | exact (load_state_counts f st logs E Hf)].
Qed.

Lemma run_keeps_invariant_witness :
  file_counts_ok (JsonFile (PDict full_record)) /\
  exists w,
    bot (sample_env (Some "123:abc") None) always_delivers
      (JsonFile (PDict full_record)) [mkUpdate "asistencia" ["2"; "8"] 7]
    = Served w /\
    keys_ok (state w) /\ attendance_state (state w) /\ file_counts_ok (disk w).
Proof.
  assert (Hf : file_counts_ok (JsonFile (PDict full_record))) by reflexivity.
  split; [exact Hf |]. eexists. split; [reflexivity |].
  destruct (run_keeps_invariant (sample_env (Some "123:abc") None) always_delivers
              (JsonFile (PDict full_record)) [mkUpdate "asistencia" ["2"; "8"] 7]
              _ eq_refl) as [Hk Hinv].
  split; [exact Hk | exact (Hinv Hf)].
Defined.

(** ** Reports *)

(** X6.  The rejection names the first check that fails: a wrong number
    of arguments gets the usage reply; with two arguments an unknown
    group gets the group reply whatever the count is; only for a known
    group does a bad count get the number reply. *)
Theorem rejection_names_first_failure (rc : option string) (reach : Z -> bool)
  (w : world) (a : list string) :
  (List.length a <> 2%nat ->
   asistencia_cmd rc reach a w = (inl tt, with_history w [Reply MsgFormato])) /\
  (forall g raw, a = [g; raw] -> str_in g GROUPS = false ->
   asistencia_cmd rc reach a w = (inl tt, with_history w [Reply MsgGrupoInvalido])) /\
  (forall g raw, a = [g; raw] -> str_in g GROUPS = true ->
   (py_int raw = None \/ exists z, py_int raw = Some z /\ z < 0) ->
   asistencia_cmd rc reach a w = (inl tt, with_history w [Reply MsgNumeroInvalido])).
Proof.
  rewrite asistencia_cmd_parse. split; [| split].
  - intros Hlen. destruct a as [| x [| y [| z rest]]]; try reflexivity.
    now destruct Hlen.
  - intros g raw -> Hg. unfold parse_report. now rewrite Hg.
  - intros g raw -> Hg Hbad. unfold parse_report. rewrite Hg.
    destruct Hbad as [-> | (z & -> & Hneg)]; [reflexivity |].
    apply Z.ltb_lt in Hneg. now rewrite Hneg.
Qed.

Lemma rejection_names_first_failure_witness :
  List.length ["3"] <> 2%nat /\
  str_in "9" GROUPS = false /\
  str_in "3" GROUPS = true /\
  (py_int "doce" = None \/ exists z, py_int "doce" = Some z /\ z < 0) /\
  asistencia_cmd None always_delivers ["3"] one_reported
  = (inl tt, with_history one_reported [Reply MsgFormato]) /\
  asistencia_cmd None always_delivers ["9"; "doce"] one_reported
  = (inl tt, with_history one_reported [Reply MsgGrupoInvalido]) /\
  asistencia_cmd None always_delivers ["3"; "doce"] one_reported
  = (inl tt, with_history one_reported [Reply MsgNumeroInvalido]).
Proof.
  assert (H1 : List.length ["3"] <> 2%nat) by discriminate.
  assert (H4 : py_int "doce" = None \/ exists z, py_int "doce" = Some z /\ z < 0)
    by (left; reflexivity).
  split; [exact H1 |]. do 2 (split; [reflexivity |]). split; [exact H4 |].
  split; [| split].
  - exact (proj1 (rejection_names_first_failure None always_delivers
                    one_reported ["3"]) H1).
  - exact (proj1 (proj2 (rejection_names_first_failure None always_delivers
                           one_reported ["9"; "doce"]))
             "9" "doce" eq_refl eq_refl).
  - exact (proj2 (proj2 (rejection_names_first_failure None always_delivers
                           one_reported ["3"; "doce"]))
             "3" "doce" eq_refl eq_refl H4).
Defined.

Lemma other_pending_intro (st : pydict) (g g' : string) :
  In g' GROUPS -> g' <> g -> is_not_None (dict_get st g') = false ->
  other_pending st g = true.
Proof.
  intros Hin Hne Hnone. unfold other_pending. apply existsb_exists.
  exists g'. split; [exact Hin |].
  apply String.eqb_neq in Hne. now rewrite Hne, Hnone.
Qed.

Lemma other_pending_elim (st : pydict) (g : string) :
  other_pending st g = true ->
  exists g', In g' GROUPS /\ g' <> g /\ is_not_None (dict_get st g') = false.
Proof.
  unfold other_pending. intros H. apply existsb_exists in H as (g' & Hin & H).
  apply andb_true_iff in H as [H1 H2].
  apply negb_true_iff in H1, H2. apply String.eqb_neq in H1. eauto.
Qed.

Lemma all_reported_setitem (st : pydict) (g : string) (v : pyval) :
  keys_ok st -> str_in g GROUPS = true -> is_not_None v = true ->
  all_reported (dict_setitem st g v) = negb (other_pending st g).
Proof.
  intros Hk Hg Hv. destruct (other_pending st g) eqn:Hp.
  - now apply other_pending_not_all.
  - destruct (keys_shape st Hk) as (v1 & v2 & v3 & v4 & v5 & v6 & ->).
    apply str_in_GROUPS in Hg.
    unfold other_pending, all_reported in *.
    destruct Hg as [-> | [-> | [-> | [-> | [-> | ->]]]]];
      cbn -[is_not_None] in *; rewrite Hv;
      destruct (is_not_None v1), (is_not_None v2), (is_not_None v3),
        (is_not_None v4), (is_not_None v5), (is_not_None v6);
      cbn in *; try discriminate; reflexivity.
Qed.

Lemma process_update_report_state (rc : option string) (reach : Z -> bool)
  (g raw : string) (n c : Z) (w : world) :
  attendance_state (state w) ->
  str_in g GROUPS = true -> py_int raw = Some n -> 0 <= n ->
  (other_pending (state w) g = false ->
   total_fits (dict_setitem (state w) g (PInt n)) = true) ->
  exists h,
    process_update rc reach (mkUpdate "asistencia" [g; raw] c) w
    = (if other_pending (state w) g
       then mkWorld (dict_setitem (state w) g (PInt n))
              (JsonFile (PDict (dict_setitem (state w) g (PInt n))))
              (history w ++ [Saved (dict_setitem (state w) g (PInt n));
                             Reply (MsgReporto g n)])
       else mkWorld clean_state (JsonFile (PDict clean_state)) (history w ++ h)) /\
    (other_pending (state w) g = false ->
     List.length (filter is_summary h) = 1%nat).
Proof.
  intros Hinv Hg Hn Hpos Hfit.
  pose proof (all_reported_setitem (state w) g (PInt n) (proj1 Hinv) Hg eq_refl) as Hall.
  destruct (other_pending (state w) g) eqn:Hp; cbn [negb] in Hall.
  - exists []. split; [| discriminate].
    rewrite (process_update_report rc reach g raw n c w (proj1 Hinv) Hg Hn Hpos).
    now rewrite Hall.
  - destruct (report_completes rc reach w g raw n c Hinv Hg Hn Hpos Hall
                (Hfit eq_refl))
      as (v1 & v2 & v3 & v4 & v5 & v6 & _ & E).
    cbv zeta in E. eexists. split; [exact E |]. intros _.
    unfold delivery_events.
    destruct (truthy rc); [| reflexivity].
    destruct (report_chat_id rc) as [cid | e]; [| reflexivity].
    destruct (reach cid); reflexivity.
Qed.

(** X7.  What a valid report does to a well-formed dict: while another
    group is pending the count is stored under its group; when none is,
    the six groups are cleared if the sum of the six values has at most
    4300 digits, and otherwise the count stays stored with the other
    five values.  In each case the file holds the resulting dict. *)
Theorem valid_report_effect (rc : option string) (reach : Z -> bool)
  (w : world) (g raw : string) (n c : Z) :
  attendance_state (state w) ->
  str_in g GROUPS = true -> py_int raw = Some n -> 0 <= n ->
  let w' := process_update rc reach (mkUpdate "asistencia" [g; raw] c) w in
  let st1 := dict_setitem (state w) g (PInt n) in
  state w' = (if other_pending (state w) g then st1
              else if total_fits st1
                   then six PNone PNone PNone PNone PNone PNone
                   else st1) /\
  disk w' = JsonFile (PDict (state w')).
Proof.
  intros Hinv Hg Hn Hpos w' st1. unfold w', st1.
  rewrite (process_update_report rc reach g raw n c w (proj1 Hinv) Hg Hn Hpos).
  pose proof (all_reported_setitem (state w) g (PInt n) (proj1 Hinv) Hg eq_refl) as Hall.
  rewrite Hall.
  destruct (other_pending (state w) g); cbn [negb] in *; [split; reflexivity |].
  destruct (reported_counts_shape _ (attendance_state_setitem _ g n Hinv Hg Hpos) Hall)
    as (v1 & v2 & v3 & v4 & v5 & v6 & Hs & _).
  unfold total_fits. rewrite Hs, py_sum_six.
  destruct (int_fits_str _); split; reflexivity.
Qed.

Lemma valid_report_effect_witness :
  attendance_state (state large_pending) /\
  str_in "1" GROUPS = true /\ py_int "1" = Some 1 /\ 0 <= 1 /\
  other_pending (state large_pending) "1" = false /\
  total_fits (dict_setitem (state large_pending) "1" (PInt 1)) = false /\
  state (process_update None always_delivers
           (mkUpdate "asistencia" ["1"; "1"] 7) large_pending)
  = dict_setitem (state large_pending) "1" (PInt 1) /\
  attendance_state (state one_reported) /\
  str_in "3" GROUPS = true /\ py_int "12" = Some 12 /\ 0 <= 12 /\
  other_pending (state one_reported) "3" = true /\
  state (process_update None always_delivers
           (mkUpdate "asistencia" ["3"; "12"] 7) one_reported)
  = dict_setitem (state one_reported) "3" (PInt 12).
Proof.
  assert (H1 : attendance_state (state large_pending))
    by exact large_pending_invariant.
  assert (H2 : attendance_state (state one_reported)) by (split; reflexivity).
  assert (Hp : other_pending (state large_pending) "1" = false) by reflexivity.
  assert (Hf : total_fits (dict_setitem (state large_pending) "1" (PInt 1)) = false)
    by exact large_pending_total.
  assert (Hq : other_pending (state one_reported) "3" = true) by reflexivity.
  pose proof (proj1 (valid_report_effect None always_delivers large_pending
                       "1" "1" 1 7 H1 eq_refl eq_refl ltac:(lia))) as E1.
  pose proof (proj1 (valid_report_effect None always_delivers one_reported
                       "3" "12" 12 7 H2 eq_refl eq_refl ltac:(lia))) as E2.
  cbv zeta in E1, E2. rewrite Hp, Hf in E1. rewrite Hq in E2.
  split; [exact H1 |]. do 2 (split; [reflexivity |]). split; [lia |].
  split; [exact Hp |]. split; [exact Hf |]. split; [exact E1 |].
  split; [exact H2 |]. do 2 (split; [reflexivity |]). split; [lia |].
  split; [exact Hq | exact E2].
Defined.

Lemma dict_setitem_twice (d : pydict) (k : string) (v v' : pyval) :
  dict_setitem (dict_setitem d k v) k v' = dict_setitem d k v'.
Proof.
  induction d as [| [k0 v0] d IH]; cbn.
  - now rewrite String.eqb_refl.
  - destruct (String.eqb k k0) eqn:E; cbn; rewrite E; [reflexivity | now rewrite IH].
Qed.

Lemma other_pending_setitem (st : pydict) (g : string) (v : pyval) :
  other_pending (dict_setitem st g v) g = other_pending st g.
Proof.
  unfold other_pending. induction GROUPS as [| g' gs IH]; [reflexivity |].
  cbn [existsb]. rewrite IH. f_equal.
  destruct (String.eqb g' g) eqn:E; [reflexivity |].
  apply String.eqb_neq in E. now rewrite dict_get_setitem_other.
Qed.

(** X8.  A group may report again before the round is complete: the
    later count replaces the earlier one, and the dict and the file are
    as if only the later report had been made. *)
Theorem rereport_overwrites (rc : option string) (reach : Z -> bool)
  (w : world) (g raw1 raw2 : string) (n1 n2 c1 c2 : Z) :
  keys_ok (state w) -> str_in g GROUPS = true ->
  py_int raw1 = Some n1 -> 0 <= n1 -> py_int raw2 = Some n2 -> 0 <= n2 ->
  other_pending (state w) g = true ->
  let w' := run_polling rc reach
              [mkUpdate "asistencia" [g; raw1] c1;
               mkUpdate "asistencia" [g; raw2] c2] w in
  state w' = dict_setitem (state w) g (PInt n2) /\
  disk w' = JsonFile (PDict (dict_setitem (state w) g (PInt n2))) /\
  state w' = state (process_update rc reach (mkUpdate "asistencia" [g; raw2] c2) w).
Proof.
  intros Hk Hg H1 P1 H2 P2 Hp w'. unfold w', run_polling. cbn [fold_left].
  rewrite (process_update_report rc reach g raw1 n1 c1 w Hk Hg H1 P1).
  rewrite (other_pending_not_all _ _ _ Hk Hg Hp).
  rewrite (process_update_report rc reach g raw2 n2 c2 w Hk Hg H2 P2).
  rewrite (other_pending_not_all _ _ _ Hk Hg Hp).
  set (w1 := mkWorld (dict_setitem (state w) g (PInt n1)) _ _).
  assert (Hk1 : keys_ok (state w1)) by (now apply keys_ok_setitem).
  rewrite (process_update_report rc reach g raw2 n2 c2 w1 Hk1 Hg H2 P2).
  unfold w1. cbn [state disk history]. rewrite dict_setitem_twice.
  rewrite (other_pending_not_all _ _ _ Hk Hg Hp). repeat split.
Qed.

Lemma rereport_overwrites_witness :
  keys_ok (state one_reported) /\ str_in "2" GROUPS = true /\
  py_int "9" = Some 9 /\ 0 <= 9 /\ py_int "15" = Some 15 /\ 0 <= 15 /\
  other_pending (state one_reported) "2" = true /\
  state (run_polling None always_delivers
           [mkUpdate "asistencia" ["2"; "9"] 7;
            mkUpdate "asistencia" ["2"; "15"] 7] one_reported)
  = dict_setitem (state one_reported) "2" (PInt 15).
Proof.
  do 3 (split; [reflexivity |]). split; [lia |]. split; [reflexivity |].
  split; [lia |]. split; [reflexivity |].
  apply (rereport_overwrites None always_delivers one_reported "2" "9" "15" 9 15 7 7);
    try reflexivity; lia.
Defined.

Lemma third_pending_elim (st : pydict) (g1 g2 : string) :
  third_pending st g1 g2 = true ->
  exists g', In g' GROUPS /\ g' <> g1 /\ g' <> g2 /\
             is_not_None (dict_get st g') = false.
Proof.
  unfold third_pending. intros H. apply existsb_exists in H as (g' & Hin & H).
  apply andb_true_iff in H as [H H3]. apply andb_true_iff in H as [H1 H2].
  apply negb_true_iff in H1, H2, H3.
  apply String.eqb_neq in H1, H2. eauto 6.
Qed.

Lemma dict_setitem_comm (st : pydict) (g1 g2 : string) (v1 v2 : pyval) :
  keys_ok st -> str_in g1 GROUPS = true -> str_in g2 GROUPS = true -> g1 <> g2 ->
  dict_setitem (dict_setitem st g1 v1) g2 v2
  = dict_setitem (dict_setitem st g2 v2) g1 v1.
Proof.
  intros Hk H1 H2 Hne.
  destruct (keys_shape st Hk) as (x1 & x2 & x3 & x4 & x5 & x6 & ->).
  apply str_in_GROUPS in H1, H2.
  destruct H1 as [-> | [-> | [-> | [-> | [-> | ->]]]]];
    destruct H2 as [-> | [-> | [-> | [-> | [-> | ->]]]]];
    first [reflexivity | now destruct Hne].
Qed.

(** X9.  Reports of two different groups can arrive in either order:
    while a third group is still pending, the dict and the file end up
    the same, with both counts stored. *)
Theorem reports_commute (rc : option string) (reach : Z -> bool)
  (w : world) (g1 g2 raw1 raw2 : string) (n1 n2 c1 c2 : Z) :
  keys_ok (state w) -> g1 <> g2 ->
  str_in g1 GROUPS = true -> py_int raw1 = Some n1 -> 0 <= n1 ->
  str_in g2 GROUPS = true -> py_int raw2 = Some n2 -> 0 <= n2 ->
  third_pending (state w) g1 g2 = true ->
  let u1 := mkUpdate "asistencia" [g1; raw1] c1 in
  let u2 := mkUpdate "asistencia" [g2; raw2] c2 in
  let both := dict_setitem (dict_setitem (state w) g1 (PInt n1)) g2 (PInt n2) in
  state (run_polling rc reach [u1; u2] w) = both /\
  state (run_polling rc reach [u2; u1] w) = both /\
  disk (run_polling rc reach [u1; u2] w) = JsonFile (PDict both) /\
  disk (run_polling rc reach [u2; u1] w) = JsonFile (PDict both).
Proof.
  intros Hk Hne Hg1 H1 P1 Hg2 H2 P2 H3 u1 u2 both.
  destruct (third_pending_elim _ _ _ H3) as (g' & Hin & Hn1 & Hn2 & Hnone).
  assert (Hstep : forall ga gb rawa rawb na nb ca cb,
             str_in ga GROUPS = true -> py_int rawa = Some na -> 0 <= na ->
             str_in gb GROUPS = true -> py_int rawb = Some nb -> 0 <= nb ->
             g' <> ga -> g' <> gb ->
             let w2 := run_polling rc reach
                         [mkUpdate "asistencia" [ga; rawa] ca;
                          mkUpdate "asistencia" [gb; rawb] cb] w in
             state w2 = dict_setitem (dict_setitem (state w) ga (PInt na)) gb (PInt nb) /\
             disk w2 = JsonFile (PDict (state w2))).
  { intros ga gb rawa rawb na nb ca cb Ga Ha Pa Gb Hb Pb Na Nb.
    unfold run_polling. cbn [fold_left].
    rewrite (process_update_report rc reach ga rawa na ca w Hk Ga Ha Pa).
    rewrite (other_pending_not_all _ _ _ Hk Ga
               (other_pending_intro _ _ g' Hin Na Hnone)).
    set (w1 := mkWorld (dict_setitem (state w) ga (PInt na)) _ _).
    assert (Hk1 : keys_ok (state w1)) by (now apply keys_ok_setitem).
    rewrite (process_update_report rc reach gb rawb nb cb w1 Hk1 Gb Hb Pb).
    rewrite (other_pending_not_all _ _ _ Hk1 Gb).
    - split; reflexivity.
    - apply (other_pending_intro _ _ g' Hin Nb). unfold w1. cbn [state].
      now rewrite dict_get_setitem_other. }
  destruct (Hstep g1 g2 raw1 raw2 n1 n2 c1 c2 Hg1 H1 P1 Hg2 H2 P2 Hn1 Hn2) as [S12 D12].
  destruct (Hstep g2 g1 raw2 raw1 n2 n1 c2 c1 Hg2 H2 P2 Hg1 H1 P1 Hn2 Hn1) as [S21 D21].
  fold u1 u2 in S12, D12, S21, D21.
  rewrite (dict_setitem_comm (state w) g2 g1 _ _ Hk Hg2 Hg1) in S21
    by (intros E; now apply Hne).
  fold both in S12, S21. rewrite D12, D21, S12, S21. repeat split.
Qed.

Lemma reports_commute_witness :
  keys_ok (state one_reported) /\ "1" <> "3" /\
  str_in "1" GROUPS = true /\ py_int "7" = Some 7 /\ 0 <= 7 /\
  str_in "3" GROUPS = true /\ py_int "12" = Some 12 /\ 0 <= 12 /\
  third_pending (state one_reported) "1" "3" = true /\
  state (run_polling None always_delivers
           [mkUpdate "asistencia" ["1"; "7"] 7;
            mkUpdate "asistencia" ["3"; "12"] 8] one_reported)
  = state (run_polling None always_delivers
             [mkUpdate "asistencia" ["3"; "12"] 8;
              mkUpdate "asistencia" ["1"; "7"] 7] one_reported).
Proof.
  assert (Hne : "1" <> "3") by discriminate.
  split; [reflexivity |]. split; [exact Hne |].
  do 2 (split; [reflexivity |]). split; [lia |].
  do 2 (split; [reflexivity |]). split; [lia |]. split; [reflexivity |].
  destruct (reports_commute None always_delivers one_reported "1" "3" "7" "12"
              7 12 7 8 eq_refl Hne eq_refl eq_refl ltac:(lia)
              eq_refl eq_refl ltac:(lia) eq_refl)
    as [S12 [S21 _]].
  now rewrite S12, S21.
Defined.

Lemma pending_groups_In (st : pydict) (g : string) :
  In g (pending_groups st) <->
  In g GROUPS /\ is_not_None (dict_get st g) = false.
Proof.
  unfold pending_groups. rewrite filter_In. now rewrite negb_true_iff.
Qed.

Lemma counts_valid_cons (r : string * string) (rs : list (string * string)) :
  counts_valid (r :: rs) = true ->
  (exists n, py_int (snd r) = Some n /\ 0 <= n) /\ counts_valid rs = true.
Proof.
  unfold counts_valid. cbn [forallb]. intros H.
  apply andb_true_iff in H as [H1 H2]. split; [| exact H2].
  destruct (py_int (snd r)) as [n |]; [| discriminate H1].
  exists n. split; [reflexivity | now apply Z.leb_le].
Qed.

(** X10.  A round may be filled in any order: when the groups that are
    still pending each report once, whatever the order, and the sum of
    the six values they leave has at most 4300 digits, the run ends with
    the six groups cleared and the cleared dict in the file, and exactly
    one summary was sent to the requester on the way. *)
Theorem round_completes_in_any_order (rc : option string) (reach : Z -> bool)
  (c : Z) (rs : list (string * string)) (w : world) :
  attendance_state (state w) -> rs <> [] -> NoDup (map fst rs) ->
  (forall g, In g (map fst rs) <-> In g (pending_groups (state w))) ->
  counts_valid rs = true ->
  total_fits (apply_reports (state w) rs) = true ->
  exists h,
    run_polling rc reach (map (report_update c) rs) w
    = mkWorld (six PNone PNone PNone PNone PNone PNone)
        (JsonFile (PDict (six PNone PNone PNone PNone PNone PNone)))
        (history w ++ h) /\
    List.length (filter is_summary h) = 1%nat.
Proof.
  change (six PNone PNone PNone PNone PNone PNone) with clean_state.
  revert w.
  induction rs as [| [g raw] rs IH]; intros w Hinv Hne Hnd Hset Hval Hfit;
    [now destruct Hne |].
  destruct (counts_valid_cons _ _ Hval) as [(n & Hn & Hpos) Hval'].
  cbn [fst snd] in Hn. cbn [map fst] in Hnd, Hset.
  unfold apply_reports in Hfit. cbn [fold_left fst snd] in Hfit.
  rewrite Hn in Hfit. fold (apply_reports (dict_setitem (state w) g (PInt n)) rs) in Hfit.
  assert (Hgp : In g (pending_groups (state w))) by (apply Hset; now left).
  apply pending_groups_In in Hgp as [Hgin Hgnone].
  assert (Hg : str_in g GROUPS = true) by now apply str_in_In.
  assert (Hlast : other_pending (state w) g = false ->
                  total_fits (dict_setitem (state w) g (PInt n)) = true).
  { intros Hp. destruct rs as [| [g2 raw2] rs']; [exact Hfit |].
    exfalso.
    assert (Hg2 : In g2 (pending_groups (state w)))
      by (apply Hset; right; now left).
    apply pending_groups_In in Hg2 as [Hg2in Hg2none].
    assert (Hne2 : g2 <> g).
    { intros ->. inversion Hnd as [| ? ? Hnotin ?]; subst. apply Hnotin. now left. }
    rewrite (other_pending_intro _ _ g2 Hg2in Hne2 Hg2none) in Hp. discriminate Hp. }
  destruct (process_update_report_state rc reach g raw n c w Hinv Hg Hn Hpos Hlast)
    as (h1 & E1 & Hone).
  unfold run_polling. cbn [map fold_left].
  change (report_update c (g, raw)) with (mkUpdate "asistencia" [g; raw] c).
  rewrite E1.
  inversion Hnd as [| ? ? Hnotin Hnd']; subst.
  destruct rs as [| [g2 raw2] rs'].
  - (* the last pending group *)
    assert (Hp : other_pending (state w) g = false).
    { destruct (other_pending (state w) g) eqn:Hp; [| reflexivity].
      destruct (other_pending_elim _ _ Hp) as (g' & Hin' & Hne' & Hnone').
      assert (In g' [g]) as [-> | []] by (apply Hset, pending_groups_In; auto).
      now destruct Hne'. }
    rewrite Hp. cbn [map fold_left]. exists h1. split; [reflexivity | auto].
  - (* another group is still to come *)
    assert (Hg2 : In g2 (pending_groups (state w)))
      by (apply Hset; right; now left).
    apply pending_groups_In in Hg2 as [Hg2in Hg2none].
    assert (Hne2 : g2 <> g).
    { intros ->. apply Hnotin. now left. }
    rewrite (other_pending_intro _ _ g2 Hg2in Hne2 Hg2none).
    set (w1 := mkWorld (dict_setitem (state w) g (PInt n)) _ _).
    destruct (IH w1) as (h & E & Hcount).
    + now apply attendance_state_setitem.
    + discriminate.
    + exact Hnd'.
    + intros g'. unfold w1. cbn [state]. rewrite pending_groups_In. split.
      * intros Hin'. assert (Hne' : g' <> g) by (intros ->; now apply Hnotin).
        rewrite dict_get_setitem_other by exact Hne'.
        apply pending_groups_In, Hset. now right.
      * intros [Hin' Hnone'].
        assert (Hne' : g' <> g).
        { intros ->. now rewrite dict_get_setitem_same in Hnone'. }
        rewrite dict_get_setitem_other in Hnone' by exact Hne'.
        assert (Hor : g = g' \/ In g' (map fst ((g2, raw2) :: rs')))
          by (apply Hset, pending_groups_In; auto).
        destruct Hor as [-> | Hor]; [now destruct Hne' | exact Hor].
    + exact Hval'.
    + exact Hfit.
    + unfold run_polling in E. rewrite E. unfold w1. cbn [history].
      eexists. rewrite <- app_assoc. split; [reflexivity |]. exact Hcount.
Qed.

Lemma round_completes_in_any_order_witness :
  attendance_state (state one_reported) /\ sample_round <> [] /\
  NoDup (map fst sample_round) /\
  (forall g, In g (map fst sample_round)
             <-> In g (pending_groups (state one_reported))) /\
  counts_valid sample_round = true /\
  total_fits (apply_reports (state one_reported) sample_round) = true /\
  exists h,
    run_polling None always_delivers (map (report_update 7) sample_round) one_reported
    = mkWorld (six PNone PNone PNone PNone PNone PNone)
        (JsonFile (PDict (six PNone PNone PNone PNone PNone PNone)))
        (history one_reported ++ h) /\
    List.length (filter is_summary h) = 1%nat.
Proof.
  assert (H1 : attendance_state (state one_reported)) by (split; reflexivity).
  assert (H2 : sample_round <> []) by discriminate.
  assert (H3 : NoDup (map fst sample_round)).
  { repeat (apply NoDup_cons;
            [cbn; intros H; repeat (destruct H as [H | H]; [discriminate H |]);
             exact H |]).
    apply NoDup_nil. }
  assert (H4 : forall g, In g (map fst sample_round)
                         <-> In g (pending_groups (state one_reported))).
  { intros g. cbn. tauto. }
  assert (H5 : counts_valid sample_round = true) by reflexivity.
  assert (H6 : total_fits (apply_reports (state one_reported) sample_round) = true)
    by (apply small_total_fits with (t := 19); [reflexivity | lia]).
  split; [exact H1 |]. split; [exact H2 |]. split; [exact H3 |].
  split; [exact H4 |]. split; [exact H5 |]. split; [exact H6 |].
  exact (round_completes_in_any_order None always_delivers 7 sample_round
           one_reported H1 H2 H3 H4 H5 H6).
Defined.

(** X11.  After the report that completes a round (no other group
    pending, the sum of the six values of at most 4300 digits), the
    status query shows every one of the six groups as pending. *)
Theorem status_after_completion (rc : option string) (reach : Z -> bool)
  (w : world) (g raw : string) (n c1 c2 : Z) (a2 : list string) (g' : string) :
  attendance_state (state w) ->
  str_in g GROUPS = true -> py_int raw = Some n -> 0 <= n ->
  other_pending (state w) g = false ->
  total_fits (dict_setitem (state w) g (PInt n)) = true ->
  In g' GROUPS ->
  status_shown
    (run_polling rc reach
       [mkUpdate "asistencia" [g; raw] c1; mkUpdate "estado" a2 c2] w) g'
  = Some (Pendiente g').
Proof.
  intros Hinv Hg Hn Hpos Hp Hfit Hin.
  destruct (process_update_report_state rc reach g raw n c1 w Hinv Hg Hn Hpos
              (fun _ => Hfit))
    as (h & E & _).
  unfold run_polling. cbn [fold_left]. rewrite E, Hp.
  unfold process_update, handlers.
  cbn [find_handler command args String.eqb Ascii.eqb Bool.eqb].
  rewrite estado_run by reflexivity.
  unfold status_shown, with_history. cbn [state disk history].
  rewrite last_snoc, find_fila_de by exact Hin.
  apply str_in_In, str_in_GROUPS in Hin.
  destruct Hin as [-> | [-> | [-> | [-> | [-> | ->]]]]]; reflexivity.
Qed.

Lemma status_after_completion_witness :
  attendance_state (state one_missing) /\
  str_in "1" GROUPS = true /\ py_int "5" = Some 5 /\ 0 <= 5 /\
  other_pending (state one_missing) "1" = false /\
  total_fits (dict_setitem (state one_missing) "1" (PInt 5)) = true /\
  In "4" GROUPS /\
  status_shown
    (run_polling None always_delivers
       [mkUpdate "asistencia" ["1"; "5"] 7; mkUpdate "estado" [] 7] one_missing) "4"
  = Some (Pendiente "4").
Proof.
  assert (Hin : In "4" GROUPS) by (do 3 right; left; reflexivity).
  split; [split; reflexivity |]. do 2 (split; [reflexivity |]). split; [lia |].
  assert (Hs : attendance_state (state one_missing)) by (split; reflexivity).
  assert (Hfit : total_fits (dict_setitem (state one_missing) "1" (PInt 5)) = true)
    by (apply small_total_fits with (t := 18); [reflexivity | lia]).
  split; [reflexivity |]. split; [exact Hfit |]. split; [exact Hin |].
  exact (status_after_completion None always_delivers one_missing "1" "5" 5 7 7 [] "4"
           Hs eq_refl eq_refl ltac:(lia) eq_refl Hfit Hin).
Defined.

(** ** The secondary destination *)

(** X12.  When a round completes (no other group pending, the sum of
    the six values of at most 4300 digits) and [REPORT_CHAT_ID] holds an integer
    whose chat is reachable, that chat gets the very summary the
    requester got, right after it, and no warning is sent; when
    [REPORT_CHAT_ID] is unset or empty nothing is sent beyond the reply
    to the requester. *)
Theorem summary_reaches_report_chat (rc : option string) (reach : Z -> bool)
  (w : world) (g raw : string) (n c : Z) :
  attendance_state (state w) ->
  str_in g GROUPS = true -> py_int raw = Some n -> 0 <= n ->
  other_pending (state w) g = false ->
  total_fits (dict_setitem (state w) g (PInt n)) = true ->
  exists st1 total,
    let mensaje := MsgResumen st1 total in
    let before := [Saved st1; Reply (MsgReporto g n); Reply mensaje] in
    let w' := process_update rc reach (mkUpdate "asistencia" [g; raw] c) w in
    (forall s chat_id, rc = Some s -> py_int s = Some chat_id ->
                       reach chat_id = true ->
     history w'
     = (history w ++ before ++ [Sent chat_id mensaje; Saved clean_state])%list) /\
    (rc = None \/ rc = Some "" ->
     history w' = (history w ++ before ++ [Saved clean_state])%list).
Proof.
  intros Hinv Hg Hn Hpos Hp Hfit.
  pose proof (all_reported_setitem (state w) g (PInt n) (proj1 Hinv) Hg eq_refl) as Hall.
  rewrite Hp in Hall. cbn [negb] in Hall.
  destruct (report_completes rc reach w g raw n c Hinv Hg Hn Hpos Hall Hfit)
    as (v1 & v2 & v3 & v4 & v5 & v6 & _ & E).
  cbv zeta in E. eexists _, _. cbv zeta. rewrite E. cbn [history]. split.
  - intros s chat_id -> Hs Hr. unfold delivery_events, report_chat_id, int_of_str.
    rewrite Hs, Hr.
    assert (Ht : truthy (Some s) = true).
    { cbn [truthy]. destruct s; [discriminate Hs | reflexivity]. }
    now rewrite Ht.
  - intros [-> | ->]; reflexivity.
Qed.

Lemma summary_reaches_report_chat_witness :
  attendance_state (state one_missing) /\
  str_in "1" GROUPS = true /\ py_int "5" = Some 5 /\ 0 <= 5 /\
  other_pending (state one_missing) "1" = false /\
  total_fits (dict_setitem (state one_missing) "1" (PInt 5)) = true /\
  py_int "-1001" = Some (-1001) /\ always_delivers (-1001) = true /\
  exists st1 total,
    history (process_update (Some "-1001") always_delivers
               (mkUpdate "asistencia" ["1"; "5"] 7) one_missing)
    = (history one_missing
         ++ [Saved st1; Reply (MsgReporto "1" 5); Reply (MsgResumen st1 total)]
         ++ [Sent (-1001) (MsgResumen st1 total); Saved clean_state])%list.
Proof.
  assert (Hs : attendance_state (state one_missing)) by (split; reflexivity).
  assert (Hfit : total_fits (dict_setitem (state one_missing) "1" (PInt 5)) = true)
    by (apply small_total_fits with (t := 18); [reflexivity | lia]).
  split; [exact Hs |]. do 2 (split; [reflexivity |]). split; [lia |].
  split; [reflexivity |]. split; [exact Hfit |]. do 2 (split; [reflexivity |]).
  destruct (summary_reaches_report_chat (Some "-1001") always_delivers one_missing
              "1" "5" 5 7 Hs eq_refl eq_refl ltac:(lia) eq_refl Hfit)
    as (st1 & total & Hsent & _).
  exists st1, total.
  exact (Hsent "-1001" (-1001) eq_refl eq_refl eq_refl).
Defined.

(** X13.  A [REPORT_CHAT_ID] that [int] cannot read (a channel name,
    say) counts as a failed delivery whatever the transport does: every
    round that completes (no other group pending, the sum of the six
    values of at most 4300 digits) logs the failure and warns the
    requester, nothing is sent to a secondary chat, and the dict is
    cleared and written all the same. *)
Theorem unreadable_report_chat_id (reach : Z -> bool) (s : string)
  (w : world) (g raw : string) (n c : Z) :
  attendance_state (state w) ->
  str_in g GROUPS = true -> py_int raw = Some n -> 0 <= n ->
  other_pending (state w) g = false ->
  total_fits (dict_setitem (state w) g (PInt n)) = true ->
  s <> "" -> py_int s = None ->
  exists st1 total,
    process_update (Some s) reach (mkUpdate "asistencia" [g; raw] c) w
    = mkWorld clean_state (JsonFile (PDict clean_state))
        (history w ++ [Saved st1; Reply (MsgReporto g n); Reply (MsgResumen st1 total);
                       Logged LogSendFailed; Reply MsgFalloEnvio; Saved clean_state]).
Proof.
  intros Hinv Hg Hn Hpos Hp Hfit Hne Hs.
  pose proof (all_reported_setitem (state w) g (PInt n) (proj1 Hinv) Hg eq_refl) as Hall.
  rewrite Hp in Hall. cbn [negb] in Hall.
  destruct (report_completes (Some s) reach w g raw n c Hinv Hg Hn Hpos Hall Hfit)
    as (v1 & v2 & v3 & v4 & v5 & v6 & _ & E).
  cbv zeta in E. eexists _, _. rewrite E.
  unfold delivery_events, report_chat_id, int_of_str. rewrite Hs.
  apply String.eqb_neq in Hne. cbn [truthy]. now rewrite Hne.
Qed.

Lemma unreadable_report_chat_id_witness :
  attendance_state (state one_missing) /\
  str_in "1" GROUPS = true /\ py_int "5" = Some 5 /\ 0 <= 5 /\
  other_pending (state one_missing) "1" = false /\
  total_fits (dict_setitem (state one_missing) "1" (PInt 5)) = true /\
  "@asistencia" <> "" /\ py_int "@asistencia" = None /\
  exists st1 total,
    process_update (Some "@asistencia") always_delivers
      (mkUpdate "asistencia" ["1"; "5"] 7) one_missing
    = mkWorld clean_state (JsonFile (PDict clean_state))
        (history one_missing
           ++ [Saved st1; Reply (MsgReporto "1" 5); Reply (MsgResumen st1 total);
               Logged LogSendFailed; Reply MsgFalloEnvio; Saved clean_state]).
Proof.
  assert (Hs : attendance_state (state one_missing)) by (split; reflexivity).
  assert (Hne : "@asistencia" <> "") by discriminate.
  assert (Hfit : total_fits (dict_setitem (state one_missing) "1" (PInt 5)) = true)
    by (apply small_total_fits with (t := 18); [reflexivity | lia]).
  split; [exact Hs |]. do 2 (split; [reflexivity |]). split; [lia |].
  split; [reflexivity |]. split; [exact Hfit |].
  split; [exact Hne |]. split; [reflexivity |].
  exact (unreadable_report_chat_id always_delivers "@asistencia" one_missing
           "1" "5" 5 7 Hs eq_refl eq_refl ltac:(lia) eq_refl Hfit Hne eq_refl).
Defined.

(** ** A dict that does not hold counts *)

Lemma py_sum_from_not_number (l : list pyval) :
  (exists v, In v l /\ is_number v = false) ->
  forall acc, py_sum_from acc l = inr TypeError.
Proof.
  induction l as [| v0 l IH]; intros (v & Hin & Hnum) acc; [destruct Hin |].
  cbn [py_sum_from].
  destruct v0; cbn [py_add]; try reflexivity;
    (destruct Hin as [<- | Hin]; [discriminate Hnum | apply IH; eauto]).
Qed.

(** X14.  When a slot of the dict holds something [sum] cannot add
    (text loaded from an edited file, say), a report of another group
    that leaves no group unset is stored, written and acknowledged, and
    then the handler raises [TypeError]: no summary is sent and nothing
    is cleared. *)
Theorem uncountable_value_blocks_completion (rc : option string)
  (reach : Z -> bool) (w : world) (g raw g' : string) (n c : Z) :
  keys_ok (state w) ->
  str_in g GROUPS = true -> py_int raw = Some n -> 0 <= n ->
  other_pending (state w) g = false ->
  In g' GROUPS -> g' <> g -> is_number (dict_get (state w) g') = false ->
  let st1 := dict_setitem (state w) g (PInt n) in
  process_update rc reach (mkUpdate "asistencia" [g; raw] c) w
  = mkWorld st1 (JsonFile (PDict st1))
      (history w ++ [Saved st1; Reply (MsgReporto g n);
                     Logged (LogHandlerError TypeError)]).
Proof.
  intros Hk Hg Hn Hpos Hp Hin Hne Hnum st1.
  rewrite (process_update_report rc reach g raw n c w Hk Hg Hn Hpos).
  fold st1. unfold st1 at 1.
  rewrite (all_reported_setitem (state w) g (PInt n) Hk Hg eq_refl), Hp.
  cbn [negb].
  assert (Hk1 : keys_ok st1) by (now apply keys_ok_setitem).
  destruct (dict_find_in_keys st1 g') as (v & Hf & Hv);
    [rewrite Hk1; exact Hin |].
  assert (Hv' : v = dict_get (state w) g').
  { rewrite <- (dict_get_setitem_other (state w) g g' (PInt n) Hne).
    fold st1. unfold dict_get. now rewrite Hf. }
  unfold py_sum. rewrite py_sum_from_not_number; [reflexivity |].
  exists v. split; [exact Hv | now rewrite Hv'].
Qed.

Lemma uncountable_value_blocks_completion_witness :
  keys_ok (state text_in_slot) /\
  str_in "6" GROUPS = true /\ py_int "0" = Some 0 /\ 0 <= 0 /\
  other_pending (state text_in_slot) "6" = false /\
  In "3" GROUPS /\ "3" <> "6" /\
  is_number (dict_get (state text_in_slot) "3") = false /\
  process_update None always_delivers (mkUpdate "asistencia" ["6"; "0"] 7) text_in_slot
  = mkWorld (dict_setitem (state text_in_slot) "6" (PInt 0))
      (JsonFile (PDict (dict_setitem (state text_in_slot) "6" (PInt 0))))
      (history text_in_slot
         ++ [Saved (dict_setitem (state text_in_slot) "6" (PInt 0));
             Reply (MsgReporto "6" 0); Logged (LogHandlerError TypeError)]).
Proof.
  assert (Hin : In "3" GROUPS) by (do 2 right; left; reflexivity).
  assert (Hne : "3" <> "6") by discriminate.
  do 3 (split; [reflexivity |]). split; [lia |]. split; [reflexivity |].
  split; [exact Hin |]. split; [exact Hne |]. split; [reflexivity |].
  apply (uncountable_value_blocks_completion None always_delivers text_in_slot
           "6" "0" "3" 0 7); try reflexivity; try lia; assumption.
Defined.

(** ** The other commands *)

(** X15.  Only [/asistencia] can change the dict or the file: an update
    with any other command, registered or not, and whatever the dict
    holds, leaves both as they are and causes no summary, no delivery
    and no write. *)
Theorem only_asistencia_mutates (rc : option string) (reach : Z -> bool)
  (u : update) (w : world) :
  command u <> "asistencia" ->
  exists h,
    process_update rc reach u w = mkWorld (state w) (disk w) (history w ++ h) /\
    forallb quiet_event h = true.
Proof.
  intros Hne. destruct u as [cmd a c]. cbn [command] in Hne.
  apply String.eqb_neq in Hne.
  unfold process_update, handlers. cbn [find_handler command args chat].
  destruct (String.eqb cmd "start"); [exists [Reply MsgAyuda]; split; reflexivity |].
  destruct (String.eqb cmd "help"); [exists [Reply MsgAyuda]; split; reflexivity |].
  rewrite Hne.
  destruct (String.eqb cmd "estado").
  { destruct (estado_frame w) as (r & h & E & Hh). rewrite E.
    destruct r as [[] | e].
    - exists h. split; [reflexivity |].
      destruct Hh as [-> | [filas ->]]; reflexivity.
    - exists (h ++ [Logged (LogHandlerError e)])%list.
      unfold with_history. cbn [state disk history]. rewrite <- app_assoc.
      split; [reflexivity |].
      destruct Hh as [-> | [filas ->]]; reflexivity. }
  destruct (String.eqb cmd "getchatid");
    [exists [Reply (MsgChatId c)]; split; reflexivity |].
  exists []. split; [| reflexivity]. rewrite app_nil_r. now destruct w.
Qed.

Lemma only_asistencia_mutates_witness :
  command (mkUpdate "getchatid" [] 42) <> "asistencia" /\
  exists h,
    process_update None always_delivers (mkUpdate "getchatid" [] 42) text_in_slot
    = mkWorld (state text_in_slot) (disk text_in_slot) (history text_in_slot ++ h) /\
    forallb quiet_event h = true.
Proof.
  assert (Hne : command (mkUpdate "getchatid" [] 42) <> "asistencia")
    by discriminate.
  split; [exact Hne |].
  exact (only_asistencia_mutates None always_delivers
           (mkUpdate "getchatid" [] 42) text_in_slot Hne).
Defined.
